(** * Near-Earth objects and their close approaches

    A shallow embedding of [models.py] (the [NearEarthObject] and
    [CloseApproach] classes) and of [extract.py] (the [load_neos] and
    [load_approaches] loaders), followed by the properties the written
    specification states about them.

    Python values are an inductive type, a Python [float] is a binary64
    primitive float (so that [==] is the IEEE comparison, under which NaN
    differs from itself), exceptions are the error side of a small result
    monad, and the dictionaries that [csv.DictReader] yields and that
    [serialize] builds are finite maps keyed by strings. *)

From Stdlib Require Import ZArith String Ascii Floats.
From stdpp Require Import gmap strings list fin_maps.

Set Warnings "-register-all".
#[local] Open Scope string_scope.

(** ** Python values, exceptions and the builtins the sources call *)

Module Python.

(** The values that reach the two modules: what [json.load] and
    [csv.DictReader] produce, and what a caller can pass to the
    constructors. A [dict] is the list of its items in insertion order,
    which is the order a [for] loop visits its keys in; its keys are [str]s
    and are distinct, so a lookup stops at the first match. *)
Inductive pyval : Type :=
| PyNone
| PyBool (b : bool)
| PyInt (z : Z)
| PyFloat (f : float)
| PyStr (s : string)
| PyList (l : list pyval)
| PyDict (d : list (string * pyval)).

(** [type(v)], compared with [==] against a class in the sources. *)
Inductive pytype : Type :=
| TNone | Tbool | Tint | Tfloat | Tstr | Tlist | Tdict.

Definition type_ (v : pyval) : pytype :=
  match v with
  | PyNone => TNone
  | PyBool _ => Tbool
  | PyInt _ => Tint
  | PyFloat _ => Tfloat
  | PyStr _ => Tstr
  | PyList _ => Tlist
  | PyDict _ => Tdict
  end.

#[export] Instance pytype_eq_dec : EqDecision pytype.
Proof. solve_decision. Defined.

(** The exceptions that can leave the modelled code. An [AssertionError]
    carries the message of the failed [assert]. *)
Inductive exn : Type :=
| AssertionError (message : string)
| KeyError (key : pyval)
| IndexError
| TypeError
| ValueError
| OverflowError
| RecursionError
| FileNotFoundError.

(** A computation either returns or raises. *)
Inductive result (A : Type) : Type :=
| Ok (a : A)
| Raise (e : exn).
Arguments Ok {A} a.
Arguments Raise {A} e.

#[export] Instance result_ret : MRet result := @Ok.
#[export] Instance result_bind : MBind result := fun A B k c =>
  match c with
  | Ok a => k a
  | Raise e => Raise e
  end.

Definition is_Ok {A} (c : result A) : Prop := exists a, c = Ok a.

(** [v == s] for a [str] literal [s]: only an equal [str] compares equal. *)
Definition eq_str (v : pyval) (s : string) : bool :=
  match v with
  | PyStr t => bool_decide (t = s)
  | _ => false
  end.

(** [x == y] on two floats. *)
Definition eq_float (x y : float) : bool := PrimFloat.eqb x y.

(** [obj[key]] for a [str] literal key. *)
Definition getitem_key (obj : pyval) (key : string) : result pyval :=
  match obj with
  | PyDict d =>
      match list_find (fun kv => fst kv = key) d with
      | Some (_, kv) => Ok (snd kv)
      | None => Raise (KeyError (PyStr key))
      end
  | _ => Raise TypeError
  end.

(** The characters of a [str], each a [str] of length one. *)
Fixpoint chars (s : string) : list pyval :=
  match s with
  | EmptyString => []
  | String c rest => PyStr (String c EmptyString) :: chars rest
  end.

(** [obj[i]] for a non-negative [int] literal [i]. A [dict] built by
    [json.load] has [str] keys only, so an [int] subscript misses. *)
Definition getitem_index (obj : pyval) (i : nat) : result pyval :=
  match obj with
  | PyList l =>
      match l !! i with
      | Some v => Ok v
      | None => Raise IndexError
      end
  | PyStr s =>
      match chars s !! i with
      | Some v => Ok v
      | None => Raise IndexError
      end
  | PyDict _ => Raise (KeyError (PyInt (Z.of_nat i)))
  | _ => Raise TypeError
  end.

(** The items a [for] loop draws from [obj]. *)
Definition iter (obj : pyval) : result (list pyval) :=
  match obj with
  | PyList l => Ok l
  | PyStr s => Ok (chars s)
  | PyDict d => Ok (map (fun kv => PyStr (fst kv)) d)
  | _ => Raise TypeError
  end.

(** [row[key]] on a row of [csv.DictReader]. *)
Definition row_get (row : gmap string pyval) (key : string) : result pyval :=
  match row !! key with
  | Some v => Ok v
  | None => Raise (KeyError (PyStr key))
  end.

(** What is left to the interpreter: the part of the builtin [float] that
    is numeric text processing (reading a [str], rounding an [int]), and
    [str(v)], the text an f-string puts in place of [{v}], which the
    interpreter refuses to produce for some values (an [int] of too many
    digits, a value nested too deep). *)
Class Builtins : Type := {
  float_of_str : string -> result float;
  float_of_int : Z -> result float;
  py_str : pyval -> result string;
}.

(** [float(v)]. *)
Definition py_float `{Builtins} (v : pyval) : result float :=
  match v with
  | PyFloat f => Ok f
  | PyStr s => float_of_str s
  | PyInt z => float_of_int z
  | PyBool b => Ok (if b then 1%float else 0%float)
  | _ => Raise TypeError
  end.

End Python.

(** ** [models.py] *)

Module Models.
Import Python.

(** A naive [datetime.datetime]. *)
Record datetime : Type := {
  year : Z; month : Z; day : Z; hour : Z; minute : Z; second : Z;
  microsecond : Z;
}.

(** [from helpers import cd_to_datetime, datetime_to_str]: the two helpers
    [models.py] imports. Their module is not part of the sources, so the
    classes below are stated for any implementation of them. *)
Class Helpers : Type := {
  cd_to_datetime : pyval -> result datetime;
  datetime_to_str : datetime -> string;
}.

(** The attributes of the two classes. [__init__] of [NearEarthObject]
    asserts the type of each argument, so an instance holds a [str], a
    [str] or [None], a [float] and a [bool]; [__init__] of [CloseApproach]
    checks nothing, so its attributes are arbitrary values. *)
Inductive NearEarthObject : Type := Build_NearEarthObject {
  designation : string;
  name : option string;
  diameter : float;
  hazardous : bool;
  approaches : list CloseApproach;
}
with CloseApproach : Type := Build_CloseApproach {
  _designation : pyval;
  time : datetime;
  distance : pyval;
  velocity : pyval;
  neo : option NearEarthObject;
}.

(** The casts behind the four [assert type(x) == ...] lines. *)
Definition as_str (v : pyval) : option string :=
  match v with PyStr s => Some s | _ => None end.
Definition as_str_or_None (v : pyval) : option (option string) :=
  match v with PyStr s => Some (Some s) | PyNone => Some None | _ => None end.
Definition as_float (v : pyval) : option float :=
  match v with PyFloat f => Some f | _ => None end.
Definition as_bool (v : pyval) : option bool :=
  match v with PyBool b => Some b | _ => None end.

(** [assert cast(v), f'{v}{text}'], returning what the cast found. When
    the check fails the message is evaluated first, and what evaluating it
    raises is raised in place of the [AssertionError]. *)
Definition assert_type `{Builtins} {A} (cast : pyval -> option A) (v : pyval)
    (text : string) : result A :=
  match cast v with
  | Some a => Ok a
  | None => shown ← py_str v; Raise (AssertionError (shown ++ text))
  end.

(** [self.neo = value], the assignment that links an approach. *)
Definition set_neo (self : CloseApproach) (value : option NearEarthObject)
    : CloseApproach :=
  {| _designation := _designation self; time := time self;
     distance := distance self; velocity := velocity self; neo := value |}.

Module NearEarthObject.

(** The defaults of [name], [diameter] and [hazardous]. *)
Definition name_default : pyval := PyNone.
Definition diameter_default : pyval := PyFloat nan.
Definition hazardous_default : pyval := PyBool false.

Definition __init__ `{Builtins} (designation name diameter hazardous : pyval)
    : result NearEarthObject :=
  designation ← assert_type as_str designation " is not a string value";
  name ← assert_type as_str_or_None name " is not a string value";
  diameter ← assert_type as_float diameter " is not a float value";
  hazardous ← assert_type as_bool hazardous " is not a boolean value";
  mret {| designation := designation; name := name; diameter := diameter;
          hazardous := hazardous; approaches := [] |}.

Definition fullname (self : NearEarthObject) : string :=
  match name self with
  | Some n => designation self ++ " (" ++ n ++ ")"
  | None => designation self
  end.

Definition serialize (self : NearEarthObject) (csv_output : bool)
    : gmap string pyval :=
  let d : gmap string pyval :=
    {[ "designation" := PyStr (designation self) ]} in
  let d :=
    match name self with
    | None => <[ "name" := PyStr "" ]> d
    | Some n => <[ "name" := PyStr n ]> d
    end in
  let d :=
    if eq_float (diameter self) nan && csv_output
    then <[ "diameter_km" := PyStr "" ]> d
    else <[ "diameter_km" := PyFloat (diameter self) ]> d in
  if bool_decide (hazardous self = false) && csv_output
  then <[ "potentially_hazardous" := PyStr "False" ]> d
  else if bool_decide (hazardous self = true) && csv_output
  then <[ "potentially_hazardous" := PyStr "True" ]> d
  else <[ "potentially_hazardous" := PyBool (hazardous self) ]> d.

End NearEarthObject.

Module CloseApproach.
Section WithHelpers.
Context `{Helpers}.

(** The default of [designation]. *)
Definition designation_default : pyval := PyStr "".

Definition __init__ (time distance velocity designation : pyval)
    : result CloseApproach :=
  t ← cd_to_datetime time;
  mret {| _designation := designation; time := t; distance := distance;
          velocity := velocity; neo := None |}.

Definition time_str (self : CloseApproach) : string :=
  datetime_to_str (time self).

Definition serialize (self : CloseApproach) : gmap string pyval :=
  <[ "velocity_km_s" := velocity self ]>
    (<[ "distance_au" := distance self ]>
       {[ "datetime_utc" := PyStr (datetime_to_str (time self)) ]}).

End WithHelpers.
End CloseApproach.

End Models.

(** ** [extract.py] *)

Module Extract.
Import Python Models.

(** What the two [open] calls and the readers on top of them deliver: the
    rows [csv.DictReader] yields for a path, and the document [json.load]
    returns for a path. The CSV reader is drawn from row by row:
    [csv_DictReader] gives all the rows when the file opens and every row
    can be drawn, and otherwise the exception that stopped the reading;
    [csv_rows_before] then gives the rows that were drawn before that
    exception (none when [open] itself raised). *)
Class Files : Type := {
  csv_DictReader : string -> result (list (gmap string pyval));
  csv_rows_before : string -> list (gmap string pyval);
  json_load : string -> result pyval;
}.

Section Loaders.
Context `{Builtins} `{Helpers} `{Files}.

(** The body of the loop of [load_neos]. *)
Definition neo_of_row (row : gmap string pyval) : result NearEarthObject :=
  designation ← row_get row "pdes";
  cell ← row_get row "name";
  name ← (if eq_str cell "" then mret PyNone else row_get row "name");
  cell ← row_get row "diameter";
  diameter ← (if eq_str cell "" then mret nan
              else cell ← row_get row "diameter"; py_float cell);
  cell ← row_get row "pha";
  let hazardous := if eq_str cell "Y" then true else false in
  NearEarthObject.__init__ designation name (PyFloat diameter)
    (PyBool hazardous).

Fixpoint load_neos_loop (reader : list (gmap string pyval))
    (neo_lst : list NearEarthObject) : result (list NearEarthObject) :=
  match reader with
  | [] => mret neo_lst
  | row :: reader =>
      neo ← neo_of_row row;
      load_neos_loop reader (neo_lst ++ [neo])
  end.

Definition neo_csv_path_default : string := "data/neos.csv".

(** The loop body runs on each row as soon as the row is drawn, so a row
    that fails to build raises before a later failure of the reader. *)
Definition load_neos (neo_csv_path : string)
    : result (list NearEarthObject) :=
  match csv_DictReader neo_csv_path with
  | Ok reader => load_neos_loop reader []
  | Raise e =>
      _ ← load_neos_loop (csv_rows_before neo_csv_path) [];
      Raise e
  end.

(** The body of the loop of [load_approaches]. *)
Definition approach_of_row (row : pyval) : result CloseApproach :=
  time ← getitem_index row 3;
  cell ← getitem_index row 4;
  distance ← py_float cell;
  cell ← getitem_index row 7;
  velocity ← py_float cell;
  designation ← getitem_index row 0;
  CloseApproach.__init__ time (PyFloat distance) (PyFloat velocity)
    designation.

Fixpoint load_approaches_loop (rows : list pyval)
    (ca_lst : list CloseApproach) : result (list CloseApproach) :=
  match rows with
  | [] => mret ca_lst
  | row :: rows =>
      ca ← approach_of_row row;
      load_approaches_loop rows (ca_lst ++ [ca])
  end.

Definition cad_json_path_default : string := "data/cad.json".

Definition load_approaches (cad_json_path : string)
    : result (list CloseApproach) :=
  reader ← json_load cad_json_path;
  data ← getitem_key reader "data";
  rows ← iter data;
  load_approaches_loop rows [].

End Loaders.
End Extract.

(** ** Reference implementations of the environment

    The classes [Builtins], [Helpers] and [Files] are what the two modules
    take from outside. The instances below are used where a statement is
    evaluated on concrete data. *)

Module Reference.
Import Python Models Extract.

(** *** Text utilities *)

Definition digit (c : ascii) : option Z :=
  let n := Z.of_nat (nat_of_ascii c) in
  if bool_decide (48 <= n <= 57)%Z then Some (n - 48)%Z else None.

Fixpoint digits_from (acc : Z) (s : string) : option Z :=
  match s with
  | EmptyString => Some acc
  | String c rest => d ← digit c; digits_from (10 * acc + d)%Z rest
  end.

(** The number a non-empty string of decimal digits writes. *)
Definition number (s : string) : option Z :=
  match s with
  | EmptyString => None
  | _ => digits_from 0 s
  end.

(** The pieces of [s] between occurrences of [sep]. *)
Fixpoint split_on (sep : ascii) (s : string) : list string :=
  match s with
  | EmptyString => [EmptyString]
  | String c rest =>
      if bool_decide (c = sep) then EmptyString :: split_on sep rest
      else match split_on sep rest with
           | piece :: pieces => String c piece :: pieces
           | [] => [String c EmptyString]
           end
  end.

Definition digit_char (d : Z) : ascii := ascii_of_nat (48 + Z.to_nat d).

Definition pad2 (n : Z) : string :=
  String (digit_char (n / 10 mod 10)) (String (digit_char (n mod 10)) "").

Definition pad4 (n : Z) : string := pad2 (n / 100) ++ pad2 (n mod 100).

(** *** The helpers *)

Definition is_leap (y : Z) : bool :=
  bool_decide (y mod 4 = 0 /\ (y mod 100 <> 0 \/ y mod 400 = 0))%Z.

Definition days_in_month (y m : Z) : Z :=
  if bool_decide (m = 2)%Z then (if is_leap y then 29 else 28)%Z
  else if bool_decide (m ∈ [4; 6; 9; 11]%Z) then 30%Z
  else 31%Z.

(** Modelled from the spec: the helper [cd_to_datetime], whose module
    [helpers] is not among the sources. It reads the compact format
    ["YYYY-MM-DD HH:MM"], the day written with or without its leading
    zero, into a timestamp at minute resolution, and fails on any other
    input. *)
Definition spec_cd_to_datetime (v : pyval) : result datetime :=
  let parsed : option datetime :=
    match v with
    | PyStr s =>
        match split_on " " s with
        | [date; clock] =>
            match split_on "-" date, split_on ":" clock with
            | [y; m; d], [hh; mm] =>
                if bool_decide (String.length y = 4 /\ String.length m = 2
                                /\ String.length d <= 2
                                /\ String.length hh = 2
                                /\ String.length mm = 2)%nat
                then
                  y ← number y; m ← number m; d ← number d;
                  hh ← number hh; mm ← number mm;
                  if bool_decide (1 <= y /\ 1 <= m <= 12
                                  /\ 1 <= d <= days_in_month y m
                                  /\ hh <= 23 /\ mm <= 59)%Z
                  then Some {| year := y; month := m; day := d; hour := hh;
                               minute := mm; second := 0; microsecond := 0 |}
                  else None
                else None
            | _, _ => None
            end
        | _ => None
        end
    | _ => None
    end in
  match parsed with
  | Some t => Ok t
  | None => Raise ValueError
  end.

(** Modelled from the spec: the helper [datetime_to_str], whose module
    [helpers] is not among the sources. It writes a timestamp at minute
    precision, without seconds, as ["YYYY-MM-DD HH:MM"]. *)
Definition spec_datetime_to_str (t : datetime) : string :=
  pad4 (year t) ++ "-" ++ pad2 (month t) ++ "-" ++ pad2 (day t) ++ " "
  ++ pad2 (hour t) ++ ":" ++ pad2 (minute t).

#[export] Instance spec_helpers : Helpers := {|
  cd_to_datetime := spec_cd_to_datetime;
  datetime_to_str := spec_datetime_to_str;
|}.

(** *** The builtins *)

(** The nearest binary64 to [n / 10 ^ k], ties to even. *)
Definition nearest_decimal (negative : bool) (n : positive) (k : nat)
    : float :=
  SF2Prim (SFdiv prec emax (S754_finite negative n 0)
             (S754_finite false (Z.to_pos (10 ^ Z.of_nat k)) 0)).

(** [float(s)] for a plain decimal literal: an optional sign, digits, and
    an optional point followed by digits. Python also reads exponents,
    underscores, surrounding blanks and the words [inf] and [nan]; this
    reference reader reports those as it reports other text. *)
Definition decimal_float_of_str (s : string) : result float :=
  let '(negative, body) :=
    match s with
    | String "-" rest => (true, rest)
    | String "+" rest => (false, rest)
    | _ => (false, s)
    end in
  let parsed : option float :=
    '(whole, frac) ← match split_on "." body with
                     | [whole] => Some (whole, EmptyString)
                     | [whole; frac] => Some (whole, frac)
                     | _ => None
                     end;
    n ← number (whole ++ frac);
    match n with
    | Zpos p => Some (nearest_decimal negative p (String.length frac))
    | _ => Some (if negative then (-0)%float else 0%float)
    end in
  match parsed with
  | Some f => Ok f
  | None => Raise ValueError
  end.

(** [float(z)] for an [int]: the nearest binary64, ties to even, and
    [OverflowError] beyond the largest finite one. *)
Definition nearest_float_of_int (z : Z) : result float :=
  match binary_normalize prec emax z 0 false with
  | S754_infinity _ => Raise OverflowError
  | f => Ok (SF2Prim f)
  end.

(** The decimal digits of [n >= 0]. *)
Fixpoint decimal_go (fuel : nat) (n : Z) (acc : string) : string :=
  match fuel with
  | O => acc
  | S fuel =>
      let acc := String (digit_char (n mod 10)) acc in
      if bool_decide (n / 10 = 0)%Z then acc
      else decimal_go fuel (n / 10)%Z acc
  end.

Definition decimal (n : Z) : string :=
  decimal_go (S (Z.to_nat (Z.log2 n))) n EmptyString.

Definition hex_digit (d : Z) : ascii :=
  if bool_decide (d < 10)%Z then digit_char d
  else ascii_of_nat (87 + Z.to_nat d).

Fixpoint contains (c : ascii) (s : string) : bool :=
  match s with
  | EmptyString => false
  | String c' rest => bool_decide (c' = c) || contains c rest
  end.

Fixpoint escaped (quote : ascii) (s : string) : string :=
  match s with
  | EmptyString => EmptyString
  | String c rest =>
      let code := Z.of_nat (nat_of_ascii c) in
      (if bool_decide (c = quote \/ c = "\"%char) then String "\" (String c "")
       else if bool_decide (code = 9)%Z then "\t"
       else if bool_decide (code = 10)%Z then "\n"
       else if bool_decide (code = 13)%Z then "\r"
       else if bool_decide (code < 32 \/ code = 127)%Z
       then String "\" (String "x" (String (hex_digit (code / 16))
                                      (String (hex_digit (code mod 16)) "")))
       else String c "")
      ++ escaped quote rest
  end.

(** [repr(s)] for a [str] of ASCII characters: in single quotes, or in
    double quotes when [s] holds a single quote and no double quote;
    backslashes, the quote in use and control characters are escaped. *)
Definition quoted (s : string) : string :=
  let quote : ascii :=
    if contains "'" s && negb (contains "034" s) then "034"%char
    else "'"%char in
  String quote (escaped quote s) ++ String quote EmptyString.

(** *** [str] *)

(** The most decimal digits of an [int] that [str] writes
    ([sys.get_int_max_str_digits()]). *)
Definition int_max_str_digits : Z := 4300.

(** The depth of nested lists and dicts beyond which writing a value
    raises [RecursionError]. The interpreter's bound depends on the depth
    of the call stack at the time and is at most
    [sys.getrecursionlimit()], the number taken here. *)
Definition recursion_limit : nat := 1000.

Definition str_int (z : Z) : result string :=
  if bool_decide (10 ^ int_max_str_digits <= Z.abs z)%Z then Raise ValueError
  else Ok ((if bool_decide (z < 0)%Z then "-" else EmptyString)
           ++ decimal (Z.abs z)).

Fixpoint zeros (n : nat) : string :=
  match n with
  | O => EmptyString
  | S n => String "0" (zeros n)
  end.

Fixpoint strip_zeros (s : string) : string :=
  match s with
  | EmptyString => EmptyString
  | String c rest =>
      match strip_zeros rest with
      | EmptyString =>
          if bool_decide (c = "0"%char) then EmptyString
          else String c EmptyString
      | rest => String c rest
      end
  end.

Fixpoint join (sep : string) (pieces : list string) : string :=
  match pieces with
  | [] => EmptyString
  | [piece] => piece
  | piece :: pieces => piece ++ sep ++ join sep pieces
  end.

(** The least [j >= from] with [q <= p * 10 ^ j], searched over [fuel]
    steps. *)
Fixpoint first_scale (fuel : nat) (from p q : Z) : Z :=
  match fuel with
  | O => from
  | S fuel =>
      if bool_decide (q <= p * 10 ^ from)%Z then from
      else first_scale fuel (from + 1)%Z p q
  end.

(** The position [t] of the decimal point of [p / q > 0]:
    [10 ^ (t - 1) <= p / q < 10 ^ t]. *)
Definition decimal_point (p q : Z) : Z :=
  if bool_decide (q <= p)%Z then Z.of_nat (String.length (decimal (p / q)))
  else (1 - first_scale 400 1 p q)%Z.

(** Whether the binary64 nearest to [c / 10 ^ s], for [c > 0], is [f]. *)
Definition reads_back (f : float) (c s : Z) : bool :=
  let nearest :=
    if bool_decide (0 <= s)%Z
    then SFdiv prec emax (S754_finite false (Z.to_pos c) 0)
           (S754_finite false (Z.to_pos (10 ^ s)) 0)
    else binary_normalize prec emax (c * 10 ^ (- s)) 0 false in
  PrimFloat.eqb (SF2Prim nearest) f.

(** The shortest decimal [c / 10 ^ s] that reads back as [f = p / q > 0],
    and among those of that length the nearest to [f]: for each number [n]
    of significant digits from [17 - fuel], the two decimals of [n] digits
    around [f] are tried. *)
Fixpoint shortest_decimal (fuel : nat) (f : float) (p q t : Z) : Z * Z :=
  let s := (17 - Z.of_nat fuel - t)%Z in
  let num := if bool_decide (0 <= s)%Z then (p * 10 ^ s)%Z else p in
  let den := if bool_decide (0 <= s)%Z then q else (q * 10 ^ (- s))%Z in
  let below := (num / den)%Z in
  let above := (below + 1)%Z in
  let nearer :=
    if bool_decide (2 * (num mod den) < den)%Z then below
    else if bool_decide (2 * (num mod den) = den)%Z
    then (if Z.even below then below else above)
    else above in
  match fuel with
  | O => (nearer, s)
  | S fuel =>
      match bool_decide (0 < below)%Z && reads_back f below s,
            reads_back f above s with
      | true, true => (nearer, s)
      | true, false => (below, s)
      | false, true => (above, s)
      | false, false => shortest_decimal fuel f p q t
      end
  end.

(** [repr(f)] of a [float]: the shortest decimal that reads back as [f],
    written with an exponent when its decimal point lies more than 16
    places to the right of the first digit or more than 4 to its left. *)
Definition repr_float (f : float) : string :=
  let sign (s : bool) : string := if s then "-" else EmptyString in
  match Prim2SF f with
  | S754_nan => "nan"
  | S754_infinity s => sign s ++ "inf"
  | S754_zero s => sign s ++ "0.0"
  | S754_finite s m e =>
      let p := match e with Zneg _ => Zpos m | _ => (Zpos m * 2 ^ e)%Z end in
      let q := match e with Zneg k => (2 ^ Zpos k)%Z | _ => 1%Z end in
      let '(c, scale) :=
        shortest_decimal 16 (PrimFloat.abs f) p q (decimal_point p q) in
      let all_digits := decimal c in
      let point := (Z.of_nat (String.length all_digits) - scale)%Z in
      let digits := strip_zeros all_digits in
      let count := Z.of_nat (String.length digits) in
      sign s
      ++ if bool_decide (-4 < point <= 16)%Z
         then
           if bool_decide (point <= 0)%Z
           then "0." ++ zeros (Z.to_nat (- point)) ++ digits
           else if bool_decide (count <= point)%Z
           then digits ++ zeros (Z.to_nat (point - count)) ++ ".0"
           else substring 0 (Z.to_nat point) digits ++ "."
                ++ substring (Z.to_nat point) (Z.to_nat (count - point))
                     digits
         else
           substring 0 1 digits
           ++ (if bool_decide (1 < count)%Z
               then "." ++ substring 1 (Z.to_nat (count - 1)) digits
               else EmptyString)
           ++ "e" ++ (if bool_decide (point - 1 < 0)%Z then "-" else "+")
           ++ (if bool_decide (Z.abs (point - 1) < 10)%Z then "0"
               else EmptyString)
           ++ decimal (Z.abs (point - 1))
  end.

(** [repr(v)], with [depth] levels of nesting left. *)
Fixpoint repr (depth : nat) (v : pyval) : result string :=
  match v with
  | PyNone => Ok "None"
  | PyBool b => Ok (if b then "True" else "False")
  | PyInt z => str_int z
  | PyFloat f => Ok (repr_float f)
  | PyStr s => Ok (quoted s)
  | PyList l =>
      match depth with
      | O => Raise RecursionError
      | S depth =>
          items ← (fix each (l : list pyval) : result (list string) :=
                     match l with
                     | [] => Ok []
                     | item :: l =>
                         shown ← repr depth item;
                         rest ← each l;
                         Ok (shown :: rest)
                     end) l;
          Ok ("[" ++ join ", " items ++ "]")
      end
  | PyDict d =>
      match depth with
      | O => Raise RecursionError
      | S depth =>
          items ← (fix each (d : list (string * pyval))
                     : result (list string) :=
                     match d with
                     | [] => Ok []
                     | (key, item) :: d =>
                         shown ← repr depth item;
                         rest ← each d;
                         Ok ((quoted key ++ ": " ++ shown) :: rest)
                     end) d;
          Ok ("{" ++ join ", " items ++ "}")
      end
  end.

(** [str(v)]: a [str] as it is, any other value as [repr] writes it. *)
Definition reference_str (v : pyval) : result string :=
  match v with
  | PyStr s => Ok s
  | _ => repr recursion_limit v
  end.

#[export] Instance decimal_builtins : Builtins := {|
  float_of_str := decimal_float_of_str;
  float_of_int := nearest_float_of_int;
  py_str := reference_str;
|}.

(** *** Files held in memory *)

Definition lookup_file {A} (files : list (string * A)) (path : string)
    : result A :=
  match list_find (fun f => fst f = path) files with
  | Some (_, f) => Ok (snd f)
  | None => Raise FileNotFoundError
  end.

Definition files_in_memory (csv : list (string * list (gmap string pyval)))
    (json : list (string * pyval)) : Files := {|
  csv_DictReader := lookup_file csv;
  csv_rows_before := fun _ => [];
  json_load := lookup_file json;
|}.

(** A CSV file of which [rows] are drawn before the reader raises [e]. *)
Definition files_interrupted (rows : list (gmap string pyval)) (e : exn)
    : Files := {|
  csv_DictReader := fun _ => Raise e;
  csv_rows_before := fun _ => rows;
  json_load := fun _ => Raise FileNotFoundError;
|}.

End Reference.


(** ** Sample data *)

Module Samples.
Import Python Models Extract Reference.

(** The columns of dataset 1 under which the fields of a tabular output
    row are read back: [designation] as [pdes], [name] as [name],
    [diameter_km] as [diameter] and [potentially_hazardous] as [pha]. *)
Definition dataset1_columns : list (string * string) :=
  [("pdes", "designation"); ("name", "name"); ("diameter", "diameter_km");
   ("pha", "potentially_hazardous")].

Definition as_dataset1_row (out : gmap string pyval) : gmap string pyval :=
  list_to_map
    (omap (fun cf => pair (fst cf) <$> out !! snd cf) dataset1_columns).

(** A row of dataset 1 from the text of its four cells. *)
Definition dataset1_row (pdes name diameter pha : string)
    : gmap string pyval :=
  {[ "pdes" := PyStr pdes; "name" := PyStr name;
     "diameter" := PyStr diameter; "pha" := PyStr pha ]}.

(** A row of dataset 2 from the text of the four positions that are read. *)
Definition dataset2_row (des cd dist v_rel : string) : pyval :=
  PyList [PyStr des; PyStr "7"; PyStr "2415020.5"; PyStr cd; PyStr dist;
          PyStr "0.14"; PyStr "0.16"; PyStr v_rel; PyStr "5.1"].

Definition sample_neos : list (gmap string pyval) :=
  [dataset1_row "433" "Eros" "16.5" "N";
   dataset1_row "2020 AB" "" "" "Y";
   dataset1_row "1036" "Ganymed" "38.5" "y";
   dataset1_row "" "" "0.25" ""].

Definition sample_cad : pyval :=
  PyDict [("signature", PyDict [("version", PyStr "1.1")]);
          ("count", PyStr "2");
          ("data", PyList [dataset2_row "433" "1900-01-01 12:00" "0.125" "5.25";
                           dataset2_row "99999" "2020-12-1 00:30" "0.5" "12"])].

(** What the loaders are expected to build from the samples. *)
Definition sample_loaded_neos : list NearEarthObject :=
  [Build_NearEarthObject "433" (Some "Eros") 16.5 false [];
   Build_NearEarthObject "2020 AB" None nan true [];
   Build_NearEarthObject "1036" (Some "Ganymed") 38.5 false [];
   Build_NearEarthObject "" None 0.25 false []].

Definition sample_loaded_approaches : list CloseApproach :=
  [Build_CloseApproach (PyStr "433")
     {| year := 1900; month := 1; day := 1; hour := 12; minute := 0;
        second := 0; microsecond := 0 |}
     (PyFloat 0.125) (PyFloat 5.25) None;
   Build_CloseApproach (PyStr "99999")
     {| year := 2020; month := 12; day := 1; hour := 0; minute := 30;
        second := 0; microsecond := 0 |}
     (PyFloat 0.5) (PyFloat 12) None].

Definition sample_files : Files :=
  files_in_memory [("data/neos.csv", sample_neos)]
                  [("data/cad.json", sample_cad)].

End Samples.

(** ** [models.py]: [__str__] and [__repr__] *)

Module Display.
Import Python Models.

(** The two text conversions of the interpreter that the four methods
    apply: [format(x, '.Nf')] on a [float], and [repr(s)] on a [str]. *)
Class Formatting : Type := {
  format_float : nat -> float -> string;
  repr_str : string -> string;
}.

(** The failed attribute access [obj.attr]; [type_name] is the type of
    [obj]. *)
Inductive attribute_error : Type :=
| AttributeError (type_name attr : string).

(** The double quote, as the one-character string. *)
Definition dquote : string := String "034"%char EmptyString.

(** [repr(b)] of a [bool]. *)
Definition repr_bool (b : bool) : string := if b then "True" else "False".

(** [repr(n)] of a [str] or [None]. *)
Definition repr_str_or_None `{Formatting} (n : option string) : string :=
  match n with
  | Some s => repr_str s
  | None => "None"
  end.

(** [f'{v:.Nf}'] for an arbitrary value: a [float] is formatted, an [int]
    or [bool] is converted to [float] first, a [str] has no format code
    ['f'], and the other types accept no format string at all. *)
Definition format_f `{Builtins} `{Formatting} (digits : nat) (v : pyval)
    : result string :=
  match v with
  | PyFloat f => Ok (format_float digits f)
  | PyInt z => f ← float_of_int z; Ok (format_float digits f)
  | PyBool b => Ok (format_float digits (if b then 1%float else 0%float))
  | PyStr _ => Raise ValueError
  | _ => Raise TypeError
  end.

Module NearEarthObject.
Section WithFormatting.
Context `{Formatting}.

Definition __str__ (self : NearEarthObject) : string :=
  let is_hazardous := if hazardous self then "is" else "is not" in
  "NEO " ++ Models.NearEarthObject.fullname self ++ " has diameter of "
  ++ format_float 3 (diameter self) ++ " km and " ++ is_hazardous
  ++ " potentially hazardous".

Definition __repr__ (self : NearEarthObject) : string :=
  "NearEarthObject(designation=" ++ repr_str (designation self)
  ++ ", name=" ++ repr_str_or_None (name self)
  ++ ", diameter=" ++ format_float 3 (diameter self)
  ++ ", hazardous=" ++ repr_bool (hazardous self) ++ ")".

End WithFormatting.
End NearEarthObject.

Module CloseApproach.
Section WithFormatting.
Context `{Builtins} `{Helpers} `{Formatting}.

(** The fields of the f-string are evaluated from left to right:
    [self.time_str], then [self.neo.fullname], which fails on [None], then
    the two formats. *)
Definition __str__ (self : CloseApproach)
    : attribute_error + result string :=
  let time_str := Models.CloseApproach.time_str self in
  match neo self with
  | None => inl (AttributeError "NoneType" "fullname")
  | Some linked =>
      inr (distance ← format_f 2 (distance self);
           velocity ← format_f 2 (velocity self);
           mret ("On " ++ time_str ++ ", " ++ dquote
                 ++ Models.NearEarthObject.fullname linked ++ dquote
                 ++ " approaches Earth at a distance of " ++ distance
                 ++ " au and a velocity of " ++ velocity ++ " km/s. "))
  end.

Definition __repr__ (self : CloseApproach) : result string :=
  let time_str := Models.CloseApproach.time_str self in
  distance ← format_f 2 (distance self);
  velocity ← format_f 2 (velocity self);
  mret ("CloseApproach(time=" ++ repr_str time_str
        ++ ", distance=" ++ distance ++ ", velocity=" ++ velocity
        ++ ", neo="
        ++ match neo self with
           | Some linked => NearEarthObject.__repr__ linked
           | None => "None"
           end
        ++ ")").

End WithFormatting.
End CloseApproach.

End Display.

(** ** Reference implementations of the text conversions *)

Module ReferenceFormatting.
Import Python Models Reference Display.

(** The last [width] decimal digits of [n >= 0]. *)
Fixpoint padded (width : nat) (n : Z) : string :=
  match width with
  | O => EmptyString
  | S width =>
      padded width (n / 10)%Z ++ String (digit_char (n mod 10)) EmptyString
  end.

(** The integer nearest to [p / q], ties to even, for [q > 0]. *)
Definition nearest_integer (p q : Z) : Z :=
  let n := (p / q)%Z in
  let r := (p mod q)%Z in
  if bool_decide (2 * r < q)%Z then n
  else if bool_decide (2 * r = q)%Z then (if Z.even n then n else n + 1)%Z
  else (n + 1)%Z.

(** [format(f, '.Nf')]: the exact value of [f] rounded to [digits]
    decimals, ties to even; the sign is kept on a zero result. *)
Definition fixed_point (digits : nat) (f : float) : string :=
  let scale := (10 ^ Z.of_nat digits)%Z in
  let body (n : Z) : string :=
    decimal (n / scale)
    ++ match digits with
       | O => EmptyString
       | _ => "." ++ padded digits (n mod scale)
       end in
  let sign (s : bool) : string := if s then "-" else EmptyString in
  match Prim2SF f with
  | S754_nan => "nan"
  | S754_infinity s => sign s ++ "inf"
  | S754_zero s => sign s ++ body 0%Z
  | S754_finite s m e =>
      sign s
      ++ body match e with
              | Zneg k => nearest_integer (Zpos m * scale) (2 ^ Zpos k)
              | _ => (Zpos m * 2 ^ e * scale)%Z
              end
  end.

#[export] Instance reference_formatting : Formatting := {|
  format_float := fixed_point;
  repr_str := quoted;
|}.

End ReferenceFormatting.

(** ** Damaged sample data *)

Module DamagedSamples.
Import Python Models Extract Reference Samples.

(** A second row whose diameter is no number, before a row without its
    [pdes] column. *)
Definition damaged_neos : list (gmap string pyval) :=
  [dataset1_row "433" "Eros" "16.5" "N";
   dataset1_row "2101" "Adonis" "unknown" "Y";
   delete "pdes" (dataset1_row "1036" "Ganymed" "38.5" "N")].

(** A second row cut after its fifth position. *)
Definition damaged_cad : pyval :=
  PyDict [("count", PyStr "2");
          ("data", PyList [dataset2_row "433" "1900-01-01 12:00" "0.125" "5.25";
                           PyList [PyStr "433"; PyStr "7"; PyStr "2415020.5";
                                   PyStr "1900-01-01 12:00"; PyStr "0.125"]])].

Definition damaged_files : Files :=
  files_in_memory [("data/neos.csv", damaged_neos)]
                  [("data/cad.json", damaged_cad)].

End DamagedSamples.

(** * Properties *)

Import Python Models Extract Reference Samples.

(** ** The result monad *)

Lemma bind_Ok {A B} (c : result A) (k : A -> result B) (b : B) :
  c ≫= k = Ok b <-> exists a, c = Ok a /\ k a = Ok b.
Proof.
  destruct c as [a|e]; simpl; split.
  - intros Hk. exists a. auto.
  - intros (a' & Ha & Hk). congruence.
  - discriminate.
  - intros (a' & Ha & _). discriminate.
Qed.

Lemma is_Ok_Ok {A} (a : A) : is_Ok (Ok a).
Proof. exists a. reflexivity. Qed.

Lemma not_is_Ok_Raise {A} (e : exn) : ~ is_Ok (@Raise A e).
Proof. intros [a Ha]. discriminate. Qed.

(** ** Floats *)

(** [x == float('nan')] is false whatever [x] is, NaN included. *)
Lemma eq_float_nan (x : float) : eq_float x nan = false.
Proof.
  unfold eq_float. rewrite FloatAxioms.eqb_spec.
  unfold SFeqb, SFcompare. destruct (Prim2SF x); reflexivity.
Qed.

(** ** [NearEarthObject.__init__] *)

Lemma assert_type_Ok `{Builtins} {A} (cast : pyval -> option A) v text a :
  assert_type cast v text = Ok a <-> cast v = Some a.
Proof.
  unfold assert_type. destruct (cast v); [split; congruence |].
  destruct (py_str v); simpl; split; discriminate.
Qed.

Lemma as_str_type v : is_Some (as_str v) <-> type_ v = Tstr.
Proof.
  destruct v; simpl; split; intros Hv;
    try discriminate; try (destruct Hv; discriminate); eauto.
Qed.

Lemma as_str_or_None_type v :
  is_Some (as_str_or_None v) <-> type_ v = Tstr \/ v = PyNone.
Proof.
  destruct v; simpl; split; intros Hv;
    try (destruct Hv; discriminate); eauto.
Qed.

Lemma as_float_type v : is_Some (as_float v) <-> type_ v = Tfloat.
Proof.
  destruct v; simpl; split; intros Hv;
    try discriminate; try (destruct Hv; discriminate); eauto.
Qed.

Lemma as_bool_type v : is_Some (as_bool v) <-> type_ v = Tbool.
Proof.
  destruct v; simpl; split; intros Hv;
    try discriminate; try (destruct Hv; discriminate); eauto.
Qed.

(** What a successful construction stored. *)
Lemma NearEarthObject_init_Ok `{Builtins} designation name diameter hazardous
    self :
  NearEarthObject.__init__ designation name diameter hazardous = Ok self <->
  designation = PyStr (Models.designation self)
  /\ name = from_option PyStr PyNone (Models.name self)
  /\ diameter = PyFloat (Models.diameter self)
  /\ hazardous = PyBool (Models.hazardous self)
  /\ approaches self = [].
Proof.
  unfold NearEarthObject.__init__. split.
  - intros Hinit.
    apply bind_Ok in Hinit as (d & Hd & Hinit).
    apply bind_Ok in Hinit as (n & Hn & Hinit).
    apply bind_Ok in Hinit as (k & Hk & Hinit).
    apply bind_Ok in Hinit as (h & Hh & Hinit).
    apply assert_type_Ok in Hd, Hn, Hk, Hh.
    injection Hinit as <-. simpl.
    destruct designation; try discriminate Hd.
    destruct name; try discriminate Hn.
    all: destruct diameter; try discriminate Hk.
    all: destruct hazardous; try discriminate Hh.
    all: simpl in *; simplify_eq; done.
  - intros (-> & -> & -> & -> & Happ).
    destruct self as [d [n|] k h a]; simpl in *; subst a; reflexivity.
Qed.

Lemma as_str_None v : as_str v = None <-> type_ v <> Tstr.
Proof. destruct v; simpl; split; congruence. Qed.

Lemma as_str_or_None_None v :
  as_str_or_None v = None <-> type_ v <> Tstr /\ v <> PyNone.
Proof.
  destruct v; simpl; split; try congruence; try (intros [? ?]; congruence);
    intros _; split; congruence.
Qed.

Lemma as_float_None v : as_float v = None <-> type_ v <> Tfloat.
Proof. destruct v; simpl; split; congruence. Qed.

Lemma as_bool_None v : as_bool v = None <-> type_ v <> Tbool.
Proof. destruct v; simpl; split; congruence. Qed.

(** Closes the parts of the statement below in a case where an assertion
    fails: [Hr], [Hno] and [Hmsg] say that the message raises, that it does
    not return, and which exception it raises once the value is written;
    the types found contradict the other parts. *)
Ltac failed_assertion :=
  match goal with
  | Hr : exists e, _ = Raise e, Hno : ~ is_Ok _, Hmsg : forall shown, _ |- _ =>
      split; [split; [intros Hok; exfalso; exact (Hno Hok)
                     | intros (? & ? & ? & ?); exfalso; tauto] |];
      split; [split; [intros _; tauto | intros _; exact Hr] |];
      repeat split; intros;
        first [ exfalso; tauto | apply Hmsg; assumption ]
  end.

(** The first assertion that fails decides the exception: its message is
    evaluated, and raised as an [AssertionError] when that returns; with
    none failing the object is built. *)
Lemma NearEarthObject_init_cases `{Builtins} designation name diameter
    hazardous :
  NearEarthObject.__init__ designation name diameter hazardous =
  match as_str designation, as_str_or_None name, as_float diameter,
        as_bool hazardous with
  | None, _, _, _ =>
      shown ← py_str designation;
      Raise (AssertionError (shown ++ " is not a string value"))
  | Some _, None, _, _ =>
      shown ← py_str name;
      Raise (AssertionError (shown ++ " is not a string value"))
  | Some _, Some _, None, _ =>
      shown ← py_str diameter;
      Raise (AssertionError (shown ++ " is not a float value"))
  | Some _, Some _, Some _, None =>
      shown ← py_str hazardous;
      Raise (AssertionError (shown ++ " is not a boolean value"))
  | Some d, Some n, Some k, Some h =>
      Ok {| Models.designation := d; Models.name := n; Models.diameter := k;
            Models.hazardous := h; approaches := [] |}
  end.
Proof.
  unfold NearEarthObject.__init__, assert_type.
  destruct (as_str designation); [| by destruct (py_str designation)].
  destruct (as_str_or_None name); [| by destruct (py_str name)].
  destruct (as_float diameter); [| by destruct (py_str diameter)].
  destruct (as_bool hazardous); [| by destruct (py_str hazardous)].
  reflexivity.
Qed.

(** A failed assertion raises, and raises the [AssertionError] of its
    message as soon as the offending value can be written. *)
Lemma failed_assertion_raises `{Builtins} {A} (v : pyval) (text : string) :
  (exists e,
     py_str v ≫= (fun shown => Raise (AssertionError (shown ++ text)))
     = @Raise A e)
  /\ ~ is_Ok (py_str v ≫= fun shown =>
               @Raise A (AssertionError (shown ++ text)))
  /\ forall shown,
       py_str v = Ok shown ->
       py_str v ≫= (fun shown => Raise (AssertionError (shown ++ text)))
       = @Raise A (AssertionError (shown ++ text)).
Proof.
  destruct (py_str v) as [shown|e]; simpl.
  - split; [eauto |]. split; [apply not_is_Ok_Raise |].
    intros shown' [= <-]. reflexivity.
  - split; [eauto |]. split; [apply not_is_Ok_Raise |]. discriminate.
Qed.

(** C4. Constructing a [NearEarthObject] succeeds exactly when
    [designation] is a [str], [name] is a [str] or [None], [diameter] is a
    [float] and [hazardous] is a [bool], and fails exactly when one of the
    four is not the case. The failure is decided by the first argument, in
    that order, of the wrong type: whenever that argument can be written
    into the message, the exception is the [AssertionError] (the
    specification's [TypeKind]) with that message. *)
Theorem NearEarthObject_init_type_check `{Builtins} designation name diameter
    hazardous :
  (is_Ok (NearEarthObject.__init__ designation name diameter hazardous) <->
     type_ designation = Tstr
     /\ (type_ name = Tstr \/ name = PyNone)
     /\ type_ diameter = Tfloat
     /\ type_ hazardous = Tbool)
  /\ ((exists e,
         NearEarthObject.__init__ designation name diameter hazardous
         = Raise e) <->
      type_ designation <> Tstr
      \/ (type_ name <> Tstr /\ name <> PyNone)
      \/ type_ diameter <> Tfloat
      \/ type_ hazardous <> Tbool)
  /\ (forall shown,
        type_ designation <> Tstr ->
        py_str designation = Ok shown ->
        NearEarthObject.__init__ designation name diameter hazardous
        = Raise (AssertionError (shown ++ " is not a string value")))
  /\ (forall shown,
        type_ designation = Tstr ->
        type_ name <> Tstr /\ name <> PyNone ->
        py_str name = Ok shown ->
        NearEarthObject.__init__ designation name diameter hazardous
        = Raise (AssertionError (shown ++ " is not a string value")))
  /\ (forall shown,
        type_ designation = Tstr ->
        type_ name = Tstr \/ name = PyNone ->
        type_ diameter <> Tfloat ->
        py_str diameter = Ok shown ->
        NearEarthObject.__init__ designation name diameter hazardous
        = Raise (AssertionError (shown ++ " is not a float value")))
  /\ (forall shown,
        type_ designation = Tstr ->
        type_ name = Tstr \/ name = PyNone ->
        type_ diameter = Tfloat ->
        type_ hazardous <> Tbool ->
        py_str hazardous = Ok shown ->
        NearEarthObject.__init__ designation name diameter hazardous
        = Raise (AssertionError (shown ++ " is not a boolean value"))).
Proof.
  rewrite NearEarthObject_init_cases.
  pose proof (as_str_None designation) as Hd.
  pose proof (as_str_type designation) as Hd'.
  pose proof (as_str_or_None_None name) as Hn.
  pose proof (as_str_or_None_type name) as Hn'.
  pose proof (as_float_None diameter) as Hk.
  pose proof (as_float_type diameter) as Hk'.
  pose proof (as_bool_None hazardous) as Hh.
  pose proof (as_bool_type hazardous) as Hh'.
  destruct (as_str designation) as [d|];
    [assert (type_ designation = Tstr) as Td by (apply Hd'; eauto)
    | assert (type_ designation <> Tstr) as Td by (apply Hd; reflexivity)].
  2: { destruct (failed_assertion_raises (A:=NearEarthObject) designation
                   " is not a string value") as (Hr & Hno & Hmsg).
       failed_assertion. }
  destruct (as_str_or_None name) as [n|];
    [assert (type_ name = Tstr \/ name = PyNone) as Tn by (apply Hn'; eauto)
    | assert (type_ name <> Tstr /\ name <> PyNone) as Tn
        by (apply Hn; reflexivity)].
  2: { destruct (failed_assertion_raises (A:=NearEarthObject) name
                   " is not a string value") as (Hr & Hno & Hmsg).
       failed_assertion. }
  destruct (as_float diameter) as [k|];
    [assert (type_ diameter = Tfloat) as Tk by (apply Hk'; eauto)
    | assert (type_ diameter <> Tfloat) as Tk by (apply Hk; reflexivity)].
  2: { destruct (failed_assertion_raises (A:=NearEarthObject) diameter
                   " is not a float value") as (Hr & Hno & Hmsg).
       failed_assertion. }
  destruct (as_bool hazardous) as [h|];
    [assert (type_ hazardous = Tbool) as Th by (apply Hh'; eauto)
    | assert (type_ hazardous <> Tbool) as Th by (apply Hh; reflexivity)].
  2: { destruct (failed_assertion_raises (A:=NearEarthObject) hazardous
                   " is not a boolean value") as (Hr & Hno & Hmsg).
       failed_assertion. }
  split; [split; [auto | intros _; apply is_Ok_Ok] |].
  split; [split; [intros [e He]; discriminate | intros Hbad; exfalso; tauto] |].
  repeat split; intros; exfalso; tauto.
Qed.

(** C4, as stated, fails: an [int] is no [str], yet with one of more
    digits than [str] writes, construction raises the [ValueError] of the
    message and not the [AssertionError]. *)
Lemma NearEarthObject_init_unwritable_designation :
  type_ (PyInt (10 ^ 5000)) = Tint
  /\ @py_str decimal_builtins (PyInt (10 ^ 5000)) = Raise ValueError
  /\ @NearEarthObject.__init__ decimal_builtins (PyInt (10 ^ 5000))
       NearEarthObject.name_default NearEarthObject.diameter_default
       NearEarthObject.hazardous_default
     = Raise ValueError.
Proof.
  split; [reflexivity |]. split; vm_compute; reflexivity.
Qed.

(** C5. A successfully constructed [NearEarthObject] holds as its
    designation the [str] it was given, whatever that [str] is: the
    constructor checks the type of [designation] and nothing else. *)
Theorem NearEarthObject_init_designation `{Builtins} designation name
    diameter hazardous self :
  NearEarthObject.__init__ designation name diameter hazardous = Ok self ->
  type_ designation = Tstr /\ designation = PyStr (Models.designation self).
Proof.
  intros Hinit. apply NearEarthObject_init_Ok in Hinit as (-> & _).
  split; reflexivity.
Qed.

Lemma NearEarthObject_init_designation_witness :
  exists self,
    NearEarthObject.__init__ (PyStr "433") (PyStr "Eros") (PyFloat 16.5)
      (PyBool false) = Ok self
    /\ type_ (PyStr "433") = Tstr
    /\ PyStr "433" = PyStr (designation self).
Proof.
  eexists. split; [reflexivity |].
  apply (NearEarthObject_init_designation (PyStr "433") (PyStr "Eros")
           (PyFloat 16.5) (PyBool false)).
  reflexivity.
Defined.

(** C5, as stated, fails: the empty [str] is accepted as a designation. *)
Lemma NearEarthObject_init_empty_designation :
  exists self,
    NearEarthObject.__init__ (PyStr "") NearEarthObject.name_default
      NearEarthObject.diameter_default NearEarthObject.hazardous_default
    = Ok self
    /\ designation self = "".
Proof. eexists. split; reflexivity. Qed.

(** ** [NearEarthObject.fullname] *)

(** C8. The full name is ["{designation} ({name})"] when the name is
    present and the designation alone when it is absent; an object built
    with designation ["433"] and name ["Eros"] has full name
    ["433 (Eros)"]. *)
Theorem NearEarthObject_fullname_spec `{Builtins} (self : NearEarthObject) :
  (forall n, name self = Some n ->
     NearEarthObject.fullname self = designation self ++ " (" ++ n ++ ")")
  /\ (name self = None -> NearEarthObject.fullname self = designation self)
  /\ (forall diameter hazardous, exists eros,
        NearEarthObject.__init__ (PyStr "433") (PyStr "Eros")
          (PyFloat diameter) (PyBool hazardous) = Ok eros
        /\ NearEarthObject.fullname eros = "433 (Eros)").
Proof.
  unfold NearEarthObject.fullname. repeat split.
  - intros n ->. reflexivity.
  - intros ->. reflexivity.
  - intros k h. eexists. split; reflexivity.
Qed.

(** ** [NearEarthObject.serialize] *)

Lemma NearEarthObject_serialize_lookup self csv_output :
  let d := NearEarthObject.serialize self csv_output in
  d !! "designation" = Some (PyStr (designation self))
  /\ d !! "name" = Some (PyStr (default "" (name self)))
  /\ d !! "diameter_km" = Some (PyFloat (diameter self))
  /\ d !! "potentially_hazardous"
     = Some (if csv_output
             then PyStr (if hazardous self then "True" else "False")
             else PyBool (hazardous self)).
Proof.
  unfold NearEarthObject.serialize. rewrite eq_float_nan.
  destruct self as [d [n|] k [|] a], csv_output; simpl; repeat split;
    by simplify_map_eq.
Qed.

Lemma NearEarthObject_serialize_dom self csv_output :
  dom (NearEarthObject.serialize self csv_output) =@{gset string}
  {[ "designation"; "name"; "diameter_km"; "potentially_hazardous" ]}.
Proof.
  unfold NearEarthObject.serialize. rewrite eq_float_nan.
  destruct self as [d [n|] k [|] a], csv_output; simpl;
    rewrite !dom_insert_L, dom_singleton_L; set_solver.
Qed.

(** C1. The diameter is written as the [float] it is in both output
    modes, so an unknown (NaN) diameter is not blanked in a tabular row:
    the test [self.diameter == float('nan')] never holds. An object built
    with the default diameter shows it. *)
Theorem NearEarthObject_serialize_nan_diameter `{Builtins} :
  (forall self csv_output,
     NearEarthObject.serialize self csv_output !! "diameter_km"
     = Some (PyFloat (diameter self)))
  /\ (exists self,
        NearEarthObject.__init__ (PyStr "2020 AB")
          NearEarthObject.name_default NearEarthObject.diameter_default
          NearEarthObject.hazardous_default = Ok self
        /\ diameter self = nan
        /\ NearEarthObject.serialize self true !! "diameter_km"
           = Some (PyFloat nan)
        /\ NearEarthObject.serialize self false !! "diameter_km"
           = Some (PyFloat nan)).
Proof.
  split.
  - intros self csv_output.
    apply (NearEarthObject_serialize_lookup self csv_output).
  - eexists. split; [reflexivity |]. split; [reflexivity |].
    split; apply NearEarthObject_serialize_lookup.
Qed.

(** ** [CloseApproach] *)

Section CloseApproachProperties.
Context `{Helpers}.

(** C9. The constructor stores [distance], [velocity] and [designation] as
    they are given, whatever they are, and leaves [neo] unset; it succeeds
    whenever reading [time] does, and it raises exactly what reading [time]
    raises. *)
Theorem CloseApproach_init_unchecked (time distance velocity designation
    : pyval) :
  (forall self,
     CloseApproach.__init__ time distance velocity designation = Ok self ->
     Models.distance self = distance
     /\ Models.velocity self = velocity
     /\ _designation self = designation
     /\ neo self = None
     /\ cd_to_datetime time = Ok (Models.time self))
  /\ (forall t, cd_to_datetime time = Ok t ->
        is_Ok (CloseApproach.__init__ time distance velocity designation))
  /\ (forall e,
        CloseApproach.__init__ time distance velocity designation = Raise e
        <-> cd_to_datetime time = Raise e).
Proof.
  unfold CloseApproach.__init__.
  destruct (cd_to_datetime time) as [t|e']; simpl; (split; [| split]).
  - intros self [= <-]. repeat split.
  - intros t0 _. apply is_Ok_Ok.
  - intros e. split; discriminate.
  - intros self Hr. discriminate.
  - intros t Hr. discriminate.
  - intros e. split; intros Hr; congruence.
Qed.

Lemma CloseApproach_serialize_lookup (self : CloseApproach) :
  CloseApproach.serialize self !! "datetime_utc"
  = Some (PyStr (datetime_to_str (time self)))
  /\ CloseApproach.serialize self !! "distance_au" = Some (distance self)
  /\ CloseApproach.serialize self !! "velocity_km_s" = Some (velocity self).
Proof.
  unfold CloseApproach.serialize. repeat split; by simplify_map_eq.
Qed.

(** C2. Serializing a [CloseApproach] gives a record with exactly the keys
    [datetime_utc], [distance_au] and [velocity_km_s], holding the formatted
    time and the stored distance and velocity, and so without a [neo] key,
    linked or not; the record with exactly the keys [designation], [name],
    [diameter_km] and [potentially_hazardous] is what serializing a
    [NearEarthObject] gives, in either output mode. *)
Theorem CloseApproach_serialize_keys (self : CloseApproach) :
  dom (CloseApproach.serialize self) =@{gset string}
    {[ "datetime_utc"; "distance_au"; "velocity_km_s" ]}
  /\ CloseApproach.serialize self !! "datetime_utc"
     = Some (PyStr (datetime_to_str (time self)))
  /\ CloseApproach.serialize self !! "distance_au" = Some (distance self)
  /\ CloseApproach.serialize self !! "velocity_km_s" = Some (velocity self)
  /\ CloseApproach.serialize self !! "neo" = None
  /\ (forall linked csv_output,
        dom (NearEarthObject.serialize linked csv_output) =@{gset string}
          {[ "designation"; "name"; "diameter_km"; "potentially_hazardous" ]}).
Proof.
  split; [| split; [| split; [| split; [| split]]]];
    try apply CloseApproach_serialize_lookup.
  - unfold CloseApproach.serialize.
    rewrite !dom_insert_L, dom_singleton_L. set_solver.
  - unfold CloseApproach.serialize. by simplify_map_eq.
  - intros linked csv_output. apply NearEarthObject_serialize_dom.
Qed.

End CloseApproachProperties.

(** C2, as stated, fails: the record of a linked approach has no [neo]
    key. *)
Lemma CloseApproach_serialize_without_neo :
  exists eros ca,
    NearEarthObject.__init__ (PyStr "433") (PyStr "Eros") (PyFloat 16.5)
      (PyBool false) = Ok eros
    /\ CloseApproach.__init__ (PyStr "1900-01-01 12:00") (PyFloat 0.125)
         (PyFloat 5.25) (PyStr "433") = Ok ca
    /\ neo (set_neo ca (Some eros)) = Some eros
    /\ CloseApproach.serialize (set_neo ca (Some eros)) !! "neo" = None
    /\ CloseApproach.serialize (set_neo ca (Some eros))
       = {[ "datetime_utc" := PyStr "1900-01-01 12:00";
            "distance_au" := PyFloat 0.125;
            "velocity_km_s" := PyFloat 5.25 ]}.
Proof.
  eexists. eexists. split; [reflexivity |]. split; [vm_compute; reflexivity |].
  split; [reflexivity |]. split; [reflexivity |]. vm_compute. reflexivity.
Qed.

(** ** [load_neos] *)

Lemma row_get_Ok row key v : row_get row key = Ok v <-> row !! key = Some v.
Proof. unfold row_get. destruct (row !! key); split; congruence. Qed.

Section NeoOfRow.
Context `{Builtins}.

(** The loop body with each cell read once. *)
Lemma neo_of_row_cells row :
  neo_of_row row =
  (pdes ← row_get row "pdes";
   name ← row_get row "name";
   cell ← row_get row "diameter";
   diameter ← (if eq_str cell "" then Ok nan else py_float cell);
   pha ← row_get row "pha";
   NearEarthObject.__init__ pdes (if eq_str name "" then PyNone else name)
     (PyFloat diameter) (PyBool (eq_str pha "Y"))).
Proof.
  unfold neo_of_row, row_get.
  destruct (row !! "pdes") as [pdes|]; [simpl | reflexivity].
  destruct (row !! "name") as [name|]; [simpl | reflexivity].
  destruct (eq_str name ""); simpl.
  all: destruct (row !! "diameter") as [cell|]; [simpl | reflexivity].
  all: destruct (eq_str cell ""); simpl.
  all: try (destruct (py_float cell) as [k|e]; [simpl | reflexivity]).
  all: destruct (row !! "pha") as [pha|]; [simpl | reflexivity].
  all: destruct (eq_str pha "Y"); reflexivity.
Qed.

(** The rows from which an object is built, and the object built. *)
Lemma neo_of_row_Ok row self :
  neo_of_row row = Ok self <->
  exists name cell pha,
    row !! "pdes" = Some (PyStr (designation self))
    /\ row !! "name" = Some name
    /\ row !! "diameter" = Some cell
    /\ row !! "pha" = Some pha
    /\ (if eq_str name "" then PyNone else name)
       = from_option PyStr PyNone (Models.name self)
    /\ (if eq_str cell "" then Ok nan else py_float cell)
       = Ok (diameter self)
    /\ hazardous self = eq_str pha "Y"
    /\ approaches self = [].
Proof.
  rewrite neo_of_row_cells. split.
  - intros Hrow.
    apply bind_Ok in Hrow as (pdes & Hpdes & Hrow).
    apply bind_Ok in Hrow as (name & Hname & Hrow).
    apply bind_Ok in Hrow as (cell & Hcell & Hrow).
    apply bind_Ok in Hrow as (k & Hk & Hrow).
    apply bind_Ok in Hrow as (pha & Hpha & Hrow).
    apply row_get_Ok in Hpdes, Hname, Hcell, Hpha.
    apply NearEarthObject_init_Ok in Hrow as (-> & Hn & [= ->] & [= Hh] & Ha).
    exists name, cell, pha. repeat split; auto.
  - intros (name & cell & pha & Hpdes & Hname & Hcell & Hpha & Hn & Hk & Hh
            & Ha).
    apply row_get_Ok in Hpdes, Hname, Hcell, Hpha.
    rewrite Hpdes, Hname, Hcell. simpl. rewrite Hk, Hpha. simpl.
    apply NearEarthObject_init_Ok. rewrite Hn, Hh. repeat split; auto.
Qed.

(** A row of four text cells builds an object as soon as its diameter cell
    is empty or is read by [float]. *)
Lemma neo_of_row_text pdes name cell pha k :
  (if bool_decide (cell = "") then Ok nan else float_of_str cell) = Ok k ->
  neo_of_row (dataset1_row pdes name cell pha)
  = Ok {| designation := pdes;
          Models.name := if bool_decide (name = "") then None else Some name;
          diameter := k;
          hazardous := bool_decide (pha = "Y");
          approaches := [] |}.
Proof.
  intros Hk. apply neo_of_row_Ok.
  exists (PyStr name), (PyStr cell), (PyStr pha). simpl.
  unfold dataset1_row. repeat split; try by simplify_map_eq.
  destruct (bool_decide (name = "")); reflexivity.
Qed.

End NeoOfRow.

(** ** The loops of the two loaders *)

Section Loop.
Context {A B : Type} (body : A -> result B).
Context (loop : list A -> list B -> result (list B)).
Hypothesis loop_nil : forall acc, loop [] acc = Ok acc.
Hypothesis loop_cons : forall x xs acc,
  loop (x :: xs) acc = body x ≫= fun b => loop xs (acc ++ [b])%list.

(** A loop that appends what [body] returns for each item returns, after
    the items already collected, one result per item, in order. *)
Lemma loop_Ok xs acc out :
  loop xs acc = Ok out <->
  exists bs,
    Forall2 (fun x b => body x = Ok b) xs bs /\ out = (acc ++ bs)%list.
Proof.
  revert acc. induction xs as [|x xs IH]; intros acc.
  - rewrite loop_nil. split.
    + intros [= <-]. exists []. split; [constructor | by rewrite app_nil_r].
    + intros (bs & Hbs & ->). inversion Hbs. by rewrite app_nil_r.
  - rewrite loop_cons, bind_Ok. split.
    + intros (b & Hb & Hloop). apply IH in Hloop as (bs & Hbs & ->).
      exists (b :: bs). split; [by constructor | by rewrite <- app_assoc].
    + intros (bs & Hbs & ->). inversion Hbs as [|? b ? bs' Hb Hbs']; subst.
      exists b. split; [exact Hb |]. apply IH. exists bs'.
      split; [exact Hbs' | by rewrite <- app_assoc].
Qed.

Lemma loop_total xs acc :
  Forall (fun x => is_Ok (body x)) xs -> is_Ok (loop xs acc).
Proof.
  intros Hxs.
  assert (exists bs, Forall2 (fun x b => body x = Ok b) xs bs) as [bs Hbs].
  { induction Hxs as [|x xs [b Hb] _ [bs Hbs]].
    - exists []. constructor.
    - exists (b :: bs). by constructor. }
  exists (acc ++ bs)%list. apply loop_Ok. eauto.
Qed.

(** From an empty collection: as many results as items, the [i]-th built
    from the [i]-th item. *)
Lemma loop_pointwise xs out :
  loop xs [] = Ok out ->
  length out = length xs
  /\ forall i x, xs !! i = Some x ->
       exists b, out !! i = Some b /\ body x = Ok b.
Proof.
  intros Hloop. apply loop_Ok in Hloop as (bs & Hbs & ->). simpl. split.
  - symmetry. exact (Forall2_length _ _ _ Hbs).
  - intros i x Hx.
    destruct (Forall2_lookup_l _ _ _ _ _ Hbs Hx) as (b & Hb & Hbody). eauto.
Qed.

End Loop.

Section LoaderProperties.
Context `{Builtins} `{Helpers} `{Files}.

Lemma load_neos_Ok neo_csv_path reader neos :
  csv_DictReader neo_csv_path = Ok reader ->
  load_neos neo_csv_path = Ok neos ->
  length neos = length reader
  /\ forall i row, reader !! i = Some row ->
       exists neo, neos !! i = Some neo /\ neo_of_row row = Ok neo.
Proof.
  unfold load_neos. intros -> Hloop. simpl in Hloop.
  apply (loop_pointwise neo_of_row load_neos_loop); auto.
Qed.

Lemma load_approaches_Ok cad_json_path reader data cas :
  json_load cad_json_path = Ok reader ->
  getitem_key reader "data" = Ok (PyList data) ->
  load_approaches cad_json_path = Ok cas ->
  length cas = length data
  /\ forall i row, data !! i = Some row ->
       exists ca, cas !! i = Some ca /\ approach_of_row row = Ok ca.
Proof.
  unfold load_approaches. intros -> Hdata Hloop. simpl in Hloop.
  rewrite Hdata in Hloop. simpl in Hloop.
  apply (loop_pointwise approach_of_row load_approaches_loop); auto.
Qed.

(** C10. Each loader returns one entity per input record, in input order:
    when every record builds, the loader returns; and what it returns is as
    long as its input, its [i]-th element built from the [i]-th row of the
    CSV reader, respectively from the [i]-th element of the array under
    ['data']. *)
Theorem loaders_one_entity_per_record :
  (forall neo_csv_path reader,
     csv_DictReader neo_csv_path = Ok reader ->
     (Forall (fun row => is_Ok (neo_of_row row)) reader ->
      is_Ok (load_neos neo_csv_path))
     /\ forall neos,
          load_neos neo_csv_path = Ok neos ->
          length neos = length reader
          /\ forall i row, reader !! i = Some row ->
               exists neo, neos !! i = Some neo /\ neo_of_row row = Ok neo)
  /\ (forall cad_json_path reader data,
        json_load cad_json_path = Ok reader ->
        getitem_key reader "data" = Ok (PyList data) ->
        (Forall (fun row => is_Ok (approach_of_row row)) data ->
         is_Ok (load_approaches cad_json_path))
        /\ forall cas,
             load_approaches cad_json_path = Ok cas ->
             length cas = length data
             /\ forall i row, data !! i = Some row ->
                  exists ca, cas !! i = Some ca /\ approach_of_row row = Ok ca).
Proof.
  split.
  - intros neo_csv_path reader Hreader. split.
    + intros Hrows. unfold load_neos. rewrite Hreader. simpl.
      apply (loop_total neo_of_row load_neos_loop); auto.
    + intros neos Hneos. exact (load_neos_Ok _ _ _ Hreader Hneos).
  - intros cad_json_path reader data Hreader Hdata. split.
    + intros Hrows. unfold load_approaches. rewrite Hreader. simpl.
      rewrite Hdata. simpl.
      apply (loop_total approach_of_row load_approaches_loop); auto.
    + intros cas Hcas.
      exact (load_approaches_Ok _ _ _ _ Hreader Hdata Hcas).
Qed.

(** C6. In what [load_neos] returns, the object built from a row has no
    name when the row's [name] cell is empty and that cell as its name
    otherwise; its diameter is NaN, which is not zero, when the row's
    [diameter] cell is empty, and what [float] reads in that cell
    otherwise. *)
Theorem load_neos_name_diameter neo_csv_path reader neos i row self :
  csv_DictReader neo_csv_path = Ok reader ->
  load_neos neo_csv_path = Ok neos ->
  reader !! i = Some row ->
  neos !! i = Some self ->
  (forall cell, row !! "name" = Some (PyStr cell) ->
     name self = if bool_decide (cell = "") then None else Some cell)
  /\ (forall cell, row !! "diameter" = Some (PyStr cell) ->
        if bool_decide (cell = "")
        then diameter self = nan /\ eq_float (diameter self) 0 = false
        else float_of_str cell = Ok (diameter self)).
Proof.
  intros Hreader Hload Hrow Hself.
  destruct (load_neos_Ok _ _ _ Hreader Hload) as [_ Hith].
  destruct (Hith i row Hrow) as (self' & Hself' & Hbuilt).
  assert (self' = self) as -> by congruence.
  apply neo_of_row_Ok in Hbuilt
    as (name & cell & pha & _ & Hname & Hcell & _ & Hn & Hk & _).
  split.
  - intros text Htext. rewrite Hname in Htext. injection Htext as ->.
    simpl in Hn. destruct (bool_decide (text = "")), (Models.name self);
      simpl in Hn; congruence.
  - intros text Htext. rewrite Hcell in Htext. injection Htext as ->.
    simpl in Hk. destruct (bool_decide (text = "")).
    + injection Hk as <-. split; reflexivity.
    + exact Hk.
Qed.

(** C7. In what [load_neos] returns, the object built from a row is
    hazardous exactly when the row's [pha] cell is the text ["Y"]. *)
Theorem load_neos_hazardous neo_csv_path reader neos i row self :
  csv_DictReader neo_csv_path = Ok reader ->
  load_neos neo_csv_path = Ok neos ->
  reader !! i = Some row ->
  neos !! i = Some self ->
  hazardous self = true <-> row !! "pha" = Some (PyStr "Y").
Proof.
  intros Hreader Hload Hrow Hself.
  destruct (load_neos_Ok _ _ _ Hreader Hload) as [_ Hith].
  destruct (Hith i row Hrow) as (self' & Hself' & Hbuilt).
  assert (self' = self) as -> by congruence.
  apply neo_of_row_Ok in Hbuilt
    as (name & cell & pha & _ & _ & _ & Hpha & _ & _ & -> & _).
  rewrite Hpha. destruct pha as [| | | |text| |]; simpl;
    try (split; congruence).
  rewrite bool_decide_eq_true. split; congruence.
Qed.

End LoaderProperties.

(** ** The loaders on the samples *)

Example load_neos_sample :
  @load_neos decimal_builtins sample_files neo_csv_path_default
  = Ok sample_loaded_neos.
Proof. vm_compute. reflexivity. Qed.

Example load_approaches_sample :
  @load_approaches decimal_builtins spec_helpers sample_files
    cad_json_path_default
  = Ok sample_loaded_approaches.
Proof. vm_compute. reflexivity. Qed.

Example load_neos_missing_file :
  @load_neos decimal_builtins sample_files "data/missing.csv"
  = Raise FileNotFoundError.
Proof. reflexivity. Qed.

(** Lowercase ["y"] and the empty cell do not mark an object hazardous. *)
Example load_neos_sample_hazardous :
  hazardous <$> sample_loaded_neos = [false; true; false; false]
  /\ (fun row => row !! "pha") <$> sample_neos
     = [Some (PyStr "N"); Some (PyStr "Y"); Some (PyStr "y");
        Some (PyStr "")].
Proof. split; vm_compute; reflexivity. Qed.

Lemma load_neos_name_diameter_witness :
  @csv_DictReader sample_files "data/neos.csv" = Ok sample_neos
  /\ @load_neos decimal_builtins sample_files "data/neos.csv"
     = Ok sample_loaded_neos
  /\ sample_neos !! 1%nat = Some (dataset1_row "2020 AB" "" "" "Y")
  /\ sample_loaded_neos !! 1%nat
     = Some (Build_NearEarthObject "2020 AB" None nan true [])
  /\ (forall cell,
        dataset1_row "2020 AB" "" "" "Y" !! "name" = Some (PyStr cell) ->
        None = if bool_decide (cell = "") then None else Some cell)
  /\ (forall cell,
        dataset1_row "2020 AB" "" "" "Y" !! "diameter" = Some (PyStr cell) ->
        if bool_decide (cell = "")
        then nan = nan /\ eq_float nan 0 = false
        else decimal_float_of_str cell = Ok nan).
Proof.
  assert (@csv_DictReader sample_files "data/neos.csv" = Ok sample_neos)
    as Hreader by reflexivity.
  assert (@load_neos decimal_builtins sample_files "data/neos.csv"
          = Ok sample_loaded_neos) as Hload by (vm_compute; reflexivity).
  assert (sample_neos !! 1%nat = Some (dataset1_row "2020 AB" "" "" "Y"))
    as Hrow by reflexivity.
  assert (sample_loaded_neos !! 1%nat
          = Some (Build_NearEarthObject "2020 AB" None nan true []))
    as Hself by reflexivity.
  split; [exact Hreader |]. split; [exact Hload |]. split; [exact Hrow |].
  split; [exact Hself |].
  exact (@load_neos_name_diameter decimal_builtins sample_files _ _ _ _ _ _
           Hreader Hload Hrow Hself).
Defined.

Lemma load_neos_hazardous_witness :
  @csv_DictReader sample_files "data/neos.csv" = Ok sample_neos
  /\ @load_neos decimal_builtins sample_files "data/neos.csv"
     = Ok sample_loaded_neos
  /\ sample_neos !! 2%nat = Some (dataset1_row "1036" "Ganymed" "38.5" "y")
  /\ sample_loaded_neos !! 2%nat
     = Some (Build_NearEarthObject "1036" (Some "Ganymed") 38.5 false [])
  /\ (false = true <->
      dataset1_row "1036" "Ganymed" "38.5" "y" !! "pha" = Some (PyStr "Y")).
Proof.
  assert (@csv_DictReader sample_files "data/neos.csv" = Ok sample_neos)
    as Hreader by reflexivity.
  assert (@load_neos decimal_builtins sample_files "data/neos.csv"
          = Ok sample_loaded_neos) as Hload by (vm_compute; reflexivity).
  assert (sample_neos !! 2%nat
          = Some (dataset1_row "1036" "Ganymed" "38.5" "y"))
    as Hrow by reflexivity.
  assert (sample_loaded_neos !! 2%nat
          = Some (Build_NearEarthObject "1036" (Some "Ganymed") 38.5 false []))
    as Hself by reflexivity.
  split; [exact Hreader |]. split; [exact Hload |]. split; [exact Hrow |].
  split; [exact Hself |].
  exact (@load_neos_hazardous decimal_builtins sample_files _ _ _ _ _ _
           Hreader Hload Hrow Hself).
Defined.

(** ** Writing a tabular row and reading it back *)

Section RoundTrip.
Context `{Builtins}.

(** C3. An object built with name ["Ganymed"], diameter [38.5] and
    [hazardous=False] is serialized to a tabular row; that row, read under
    the columns of dataset 1 by the body of [load_neos], builds an object
    with the same name, diameter and hazardous flag (and designation). *)
Theorem serialize_then_reparse_Ganymed (pdes : string) :
  exists ganymed reparsed,
    NearEarthObject.__init__ (PyStr pdes) (PyStr "Ganymed") (PyFloat 38.5)
      (PyBool false) = Ok ganymed
    /\ neo_of_row (as_dataset1_row (NearEarthObject.serialize ganymed true))
       = Ok reparsed
    /\ name reparsed = Some "Ganymed"
    /\ diameter reparsed = 38.5%float
    /\ hazardous reparsed = false
    /\ reparsed = ganymed.
Proof.
  eexists. eexists. split; [reflexivity |].
  split; [vm_compute; reflexivity |]. repeat split.
Qed.

(** The same through text: with the float cell written as any text that
    [float] reads as [38.5], and the flag written as ["False"]. *)
Lemma reparse_Ganymed_text (pdes cell : string) :
  cell <> "" ->
  float_of_str cell = Ok 38.5%float ->
  neo_of_row (dataset1_row pdes "Ganymed" cell "False")
  = Ok (Build_NearEarthObject pdes (Some "Ganymed") 38.5 false []).
Proof.
  intros Hne Hcell. rewrite (neo_of_row_text pdes "Ganymed" cell "False" 38.5).
  - reflexivity.
  - rewrite bool_decide_eq_false_2 by exact Hne. exact Hcell.
Qed.

End RoundTrip.

Example reparse_Ganymed_decimal :
  @neo_of_row decimal_builtins (dataset1_row "1036" "Ganymed" "38.5" "False")
  = Ok (Build_NearEarthObject "1036" (Some "Ganymed") 38.5 false []).
Proof. vm_compute. reflexivity. Qed.

(** ** [load_approaches], row by row *)

Section ApproachOfRow.
Context `{Builtins} `{Helpers}.

(** Only positions 0, 3, 4 and 7 of a row are read. *)
Lemma approach_of_row_positions (row : list pyval) des cd dist v_rel :
  row !! 0%nat = Some des -> row !! 3%nat = Some cd ->
  row !! 4%nat = Some dist -> row !! 7%nat = Some v_rel ->
  approach_of_row (PyList row) =
  (distance ← py_float dist;
   velocity ← py_float v_rel;
   CloseApproach.__init__ cd (PyFloat distance) (PyFloat velocity) des).
Proof.
  intros Hdes Hcd Hdist Hv. unfold approach_of_row, getitem_index.
  rewrite Hcd, Hdist. simpl. destruct (py_float dist) as [d|e]; simpl.
  - rewrite Hv. simpl. destruct (py_float v_rel) as [v|e]; simpl.
    + rewrite Hdes. reflexivity.
    + reflexivity.
  - reflexivity.
Qed.

(** A row with fewer than eight positions raises [IndexError], at
    position 3, 4 or 7. *)
Lemma approach_of_row_short (row : list pyval) :
  (length row < 8)%nat -> ~ is_Ok (approach_of_row (PyList row)).
Proof.
  intros Hlen [ca Hca]. unfold approach_of_row, getitem_index in Hca.
  apply bind_Ok in Hca as (cd & _ & Hca).
  apply bind_Ok in Hca as (dist & _ & Hca).
  apply bind_Ok in Hca as (distance & _ & Hca).
  apply bind_Ok in Hca as (v_rel & Hv & _).
  destruct (row !! 7%nat) eqn:Hrow; [| discriminate].
  apply lookup_lt_Some in Hrow. lia.
Qed.

End ApproachOfRow.

Example approach_of_row_sample_short :
  @approach_of_row decimal_builtins spec_helpers
    (PyList [PyStr "433"; PyStr "7"; PyStr "2415020.5";
             PyStr "1900-01-01 12:00"; PyStr "0.125"])
  = Raise IndexError.
Proof. vm_compute. reflexivity. Qed.

Example approach_of_row_sample_None :
  @approach_of_row decimal_builtins spec_helpers PyNone = Raise TypeError.
Proof. reflexivity. Qed.

(** The first row of the samples, as the written specification has it:
    designation ["433"], name ["Eros"], full name ["433 (Eros)"]. *)
Example load_neos_sample_fullname :
  NearEarthObject.fullname <$> sample_loaded_neos
  = ["433 (Eros)"; "2020 AB"; "1036 (Ganymed)"; ""].
Proof. reflexivity. Qed.

(** * Further properties of the loaders *)

Import Display ReferenceFormatting DamagedSamples.

Section LoopFailure.
Context {A B : Type} (body : A -> result B).
Context (loop : list A -> list B -> result (list B)).
Hypothesis loop_nil : forall acc, loop [] acc = Ok acc.
Hypothesis loop_cons : forall x xs acc,
  loop (x :: xs) acc = body x ≫= fun b => loop xs (acc ++ [b])%list.

(** The loop raises what the first failing item raises: the items before
    it were built, the items after it are not looked at. *)
Lemma loop_Raise xs acc e :
  loop xs acc = Raise e <->
  exists i x,
    xs !! i = Some x /\ body x = Raise e
    /\ forall j y, (j < i)%nat -> xs !! j = Some y -> is_Ok (body y).
Proof.
  revert acc. induction xs as [|x xs IH]; intros acc.
  - rewrite loop_nil. split; [discriminate |].
    intros (i & x & Hx & _). rewrite lookup_nil in Hx. discriminate.
  - rewrite loop_cons. destruct (body x) as [b|e'] eqn:Hbody; simpl.
    + rewrite IH. split.
      * intros (i & x' & Hx' & He & Hbefore). exists (S i), x'.
        split; [exact Hx' |]. split; [exact He |].
        intros [|j] y Hj Hy; simpl in Hy.
        -- injection Hy as <-. rewrite Hbody. apply is_Ok_Ok.
        -- apply (Hbefore j y); [lia | exact Hy].
      * intros ([|i] & x' & Hx' & He & Hbefore); simpl in Hx'.
        -- injection Hx' as <-. congruence.
        -- exists i, x'. split; [exact Hx' |]. split; [exact He |].
           intros j y Hj Hy. apply (Hbefore (S j) y); [lia | exact Hy].
    + split.
      * intros [= <-]. exists 0%nat, x. split; [reflexivity |].
        split; [exact Hbody |]. intros j y Hj. lia.
      * intros ([|i] & x' & Hx' & He & Hbefore); simpl in Hx'.
        -- injection Hx' as <-. congruence.
        -- exfalso. apply (@not_is_Ok_Raise B e').
           rewrite <- Hbody. apply (Hbefore 0%nat x); [lia | reflexivity].
Qed.

End LoopFailure.

Section LoaderFailures.
Context `{Builtins} `{Helpers} `{Files}.

(** X1. [load_neos] raises an exception exactly when some row drawn from
    the reader raises it while every row drawn before that one builds an
    object, or when the reader stops with it, at [open] or while drawing
    a row, and every row drawn until then builds an object: a row that
    fails to build wins over a later failure of the reader. *)
Theorem load_neos_first_failure neo_csv_path e :
  load_neos neo_csv_path = Raise e <->
  (exists reader i row,
     csv_DictReader neo_csv_path = Ok reader
     /\ reader !! i = Some row
     /\ neo_of_row row = Raise e
     /\ forall j earlier, (j < i)%nat -> reader !! j = Some earlier ->
          is_Ok (neo_of_row earlier))
  \/ (exists stop i row,
        csv_DictReader neo_csv_path = Raise stop
        /\ csv_rows_before neo_csv_path !! i = Some row
        /\ neo_of_row row = Raise e
        /\ forall j earlier, (j < i)%nat ->
             csv_rows_before neo_csv_path !! j = Some earlier ->
             is_Ok (neo_of_row earlier))
  \/ (csv_DictReader neo_csv_path = Raise e
      /\ forall i row, csv_rows_before neo_csv_path !! i = Some row ->
           is_Ok (neo_of_row row)).
Proof.
  unfold load_neos.
  destruct (csv_DictReader neo_csv_path) as [reader|stop] eqn:Hreader.
  - rewrite (loop_Raise neo_of_row load_neos_loop) by reflexivity. split.
    + intros (i & row & Hrow). left. exists reader, i, row. auto.
    + intros [(reader' & i & row & [= <-] & Hrow)
              |[(stop & i & row & Hr & _)|[Hr _]]];
        [| discriminate ..].
      exists i, row. exact Hrow.
  - destruct (load_neos_loop (csv_rows_before neo_csv_path) [])
      as [built|e'] eqn:Hloop; simpl.
    + destruct (loop_pointwise neo_of_row load_neos_loop
                  (fun _ => eq_refl) (fun _ _ _ => eq_refl) _ _ Hloop)
        as [_ Hith].
      split.
      * intros [= <-]. right. right. split; [reflexivity |].
        intros i row Hrow. destruct (Hith i row Hrow) as (neo & _ & Hneo).
        rewrite Hneo. apply is_Ok_Ok.
      * intros [(reader & i & row & Hr & _)
                |[(stop' & i & row & _ & Hrow)|[[= <-] _]]];
          [discriminate | | reflexivity].
        exfalso.
        assert (load_neos_loop (csv_rows_before neo_csv_path) [] = Raise e)
          as Hraise
          by (apply (loop_Raise neo_of_row load_neos_loop);
              [reflexivity | reflexivity | eauto]).
        congruence.
    + apply (loop_Raise neo_of_row load_neos_loop) in Hloop;
        [| reflexivity | reflexivity].
      split.
      * intros [= <-]. right. left.
        destruct Hloop as (i & row & Hrow). exists stop, i, row. auto.
      * intros [(reader & i & row & Hr & _)
                |[(stop' & i & row & _ & Hrow)|[_ Hall]]];
          [discriminate | |].
        -- assert (load_neos_loop (csv_rows_before neo_csv_path) []
                   = Raise e) as Hraise
             by (apply (loop_Raise neo_of_row load_neos_loop);
                 [reflexivity | reflexivity | eauto]).
           assert (load_neos_loop (csv_rows_before neo_csv_path) []
                   = Raise e') as Hraise'
             by (apply (loop_Raise neo_of_row load_neos_loop);
                 [reflexivity | reflexivity | exact Hloop]).
           congruence.
        -- exfalso. destruct Hloop as (i & row & Hrow & Hfail & _).
           apply (@not_is_Ok_Raise NearEarthObject e').
           rewrite <- Hfail. exact (Hall i row Hrow).
Qed.

(** X2. [load_approaches] raises an exception exactly when reading the
    document, subscripting it with ['data'] or iterating over that value
    raises it, or when some item raises it while every item before that
    one builds an approach. *)
Theorem load_approaches_first_failure cad_json_path e :
  load_approaches cad_json_path = Raise e <->
  json_load cad_json_path = Raise e
  \/ (exists reader,
        json_load cad_json_path = Ok reader
        /\ getitem_key reader "data" = Raise e)
  \/ (exists reader data,
        json_load cad_json_path = Ok reader
        /\ getitem_key reader "data" = Ok data
        /\ iter data = Raise e)
  \/ exists reader data rows i row,
       json_load cad_json_path = Ok reader
       /\ getitem_key reader "data" = Ok data
       /\ iter data = Ok rows
       /\ rows !! i = Some row
       /\ approach_of_row row = Raise e
       /\ forall j earlier, (j < i)%nat -> rows !! j = Some earlier ->
            is_Ok (approach_of_row earlier).
Proof.
  unfold load_approaches.
  destruct (json_load cad_json_path) as [reader|e1] eqn:Hreader; simpl.
  2: { split.
       - intros [= <-]. left. reflexivity.
       - intros [[= <-]|[(r & Hr & _)|[(r & d & Hr & _)
                 |(r & d & rs & i & row & Hr & _)]]];
           [reflexivity | discriminate ..]. }
  destruct (getitem_key reader "data") as [data|e2] eqn:Hdata; simpl.
  2: { split.
       - intros [= <-]. right. left. exists reader. auto.
       - intros [Hr|[(r & [= <-] & Hd)|[(r & d & [= <-] & Hd & _)
                 |(r & d & rs & i & row & [= <-] & Hd & _)]]];
           [discriminate | congruence ..]. }
  destruct (iter data) as [rows|e3] eqn:Hrows; simpl.
  2: { split.
       - intros [= <-]. right. right. left. exists reader, data. auto.
       - intros [Hr|[(r & [= <-] & Hd)|[(r & d & [= <-] & Hd & Hi)
                 |(r & d & rs & i & row & [= <-] & Hd & Hi & _)]]];
           [discriminate | congruence ..]. }
  rewrite (loop_Raise approach_of_row load_approaches_loop) by reflexivity.
  split.
  - intros (i & row & Hrow). right. right. right.
    exists reader, data, rows, i, row. auto.
  - intros [Hr|[(r & [= <-] & Hd)|[(r & d & [= <-] & Hd & Hi)
            |(r & d & rs & i & row & [= <-] & Hd & Hi & Hrow)]]];
      [discriminate | congruence | congruence |].
    assert (d = data) as -> by congruence.
    assert (rs = rows) as -> by congruence.
    exists i, row. exact Hrow.
Qed.

End LoaderFailures.

Example load_neos_damaged :
  @load_neos decimal_builtins damaged_files neo_csv_path_default
  = Raise ValueError.
Proof. vm_compute. reflexivity. Qed.

(** The reader stops with [ValueError] after two rows, of which the second
    has no [pdes] column: the row's [KeyError] is raised. With the first row
    alone drawn, the reader's exception is. *)
Example load_neos_interrupted :
  @load_neos decimal_builtins
    (files_interrupted [dataset1_row "433" "Eros" "16.5" "N";
                        delete "pdes" (dataset1_row "1036" "Ganymed" "38.5" "N")]
       ValueError)
    neo_csv_path_default
  = Raise (KeyError (PyStr "pdes"))
  /\ @load_neos decimal_builtins
       (files_interrupted [dataset1_row "433" "Eros" "16.5" "N"] ValueError)
       neo_csv_path_default
     = Raise ValueError.
Proof. split; vm_compute; reflexivity. Qed.

Example load_approaches_damaged :
  @load_approaches decimal_builtins spec_helpers damaged_files
    cad_json_path_default
  = Raise IndexError.
Proof. vm_compute. reflexivity. Qed.

(** ** What the loaders guarantee about the entities they return *)

Section LoadedEntities.
Context `{Builtins} `{Helpers} `{Files}.

Lemma load_neos_built neo_csv_path neos i self :
  load_neos neo_csv_path = Ok neos ->
  neos !! i = Some self ->
  exists reader row,
    csv_DictReader neo_csv_path = Ok reader
    /\ reader !! i = Some row /\ neo_of_row row = Ok self.
Proof.
  intros Hload Hself.
  destruct (csv_DictReader neo_csv_path) as [reader|e] eqn:Hreader;
    [| unfold load_neos in Hload; rewrite Hreader in Hload;
       destruct (load_neos_loop (csv_rows_before neo_csv_path) []);
       discriminate].
  destruct (load_neos_Ok _ _ _ Hreader Hload) as [Hlen Hith].
  destruct (lookup_lt_is_Some_2 reader i) as [row Hrow].
  { rewrite <- Hlen. apply (lookup_lt_Some _ _ _ Hself). }
  destruct (Hith i row Hrow) as (self' & Hself' & Hbuilt).
  exists reader, row. repeat split; congruence.
Qed.

(** X3. Every object [load_neos] returns has an empty collection of
    approaches, and a name that is absent or a non-empty text: the empty
    text never becomes a name. *)
Theorem load_neos_returns_unlinked_named neo_csv_path neos i self :
  load_neos neo_csv_path = Ok neos ->
  neos !! i = Some self ->
  approaches self = [] /\ name self <> Some "".
Proof.
  intros Hload Hself.
  destruct (load_neos_built _ _ _ _ Hload Hself)
    as (reader & row & _ & _ & Hbuilt).
  apply neo_of_row_Ok in Hbuilt
    as (cell & _ & _ & _ & _ & _ & _ & Hn & _ & _ & Ha).
  split; [exact Ha |]. intros Hname. rewrite Hname in Hn. simpl in Hn.
  destruct (eq_str cell "") eqn:Hcell; [discriminate |].
  subst cell. vm_compute in Hcell. discriminate Hcell.
Qed.

Lemma approach_of_row_Ok row self :
  approach_of_row row = Ok self ->
  neo self = None
  /\ getitem_index row 0 = Ok (_designation self)
  /\ (exists cd, getitem_index row 3 = Ok cd
                 /\ cd_to_datetime cd = Ok (time self))
  /\ (exists cell d, getitem_index row 4 = Ok cell
                     /\ py_float cell = Ok d /\ distance self = PyFloat d)
  /\ (exists cell v, getitem_index row 7 = Ok cell
                     /\ py_float cell = Ok v /\ velocity self = PyFloat v).
Proof.
  unfold approach_of_row. intros Hrow.
  apply bind_Ok in Hrow as (cd & Hcd & Hrow).
  apply bind_Ok in Hrow as (c4 & Hc4 & Hrow).
  apply bind_Ok in Hrow as (d & Hd & Hrow).
  apply bind_Ok in Hrow as (c7 & Hc7 & Hrow).
  apply bind_Ok in Hrow as (v & Hv & Hrow).
  apply bind_Ok in Hrow as (des & Hdes & Hrow).
  unfold CloseApproach.__init__ in Hrow.
  apply bind_Ok in Hrow as (t & Ht & [= <-]). simpl.
  split; [reflexivity |]. split; [exact Hdes |].
  split; [exists cd; auto |]. split; [exists c4, d | exists c7, v]; auto.
Qed.

Lemma load_approaches_built cad_json_path cas i self :
  load_approaches cad_json_path = Ok cas ->
  cas !! i = Some self ->
  exists row, approach_of_row row = Ok self.
Proof.
  unfold load_approaches. intros Hload Hself.
  apply bind_Ok in Hload as (reader & _ & Hload).
  apply bind_Ok in Hload as (data & _ & Hload).
  apply bind_Ok in Hload as (rows & _ & Hload).
  destruct (loop_pointwise approach_of_row load_approaches_loop
              (fun _ => eq_refl) (fun _ _ _ => eq_refl) rows cas Hload)
    as [Hlen Hith].
  destruct (lookup_lt_is_Some_2 rows i) as [row Hrow].
  { rewrite <- Hlen. apply (lookup_lt_Some _ _ _ Hself). }
  destruct (Hith i row Hrow) as (self' & Hself' & Hbuilt).
  exists row. congruence.
Qed.

(** X4. Every approach [load_approaches] returns holds a [float] as its
    distance and as its velocity, and is not linked to an object, whatever
    the document held. *)
Theorem load_approaches_returns_floats cad_json_path cas i self :
  load_approaches cad_json_path = Ok cas ->
  cas !! i = Some self ->
  type_ (distance self) = Tfloat
  /\ type_ (velocity self) = Tfloat
  /\ neo self = None.
Proof.
  intros Hload Hself.
  destruct (load_approaches_built _ _ _ _ Hload Hself) as (row & Hbuilt).
  apply approach_of_row_Ok in Hbuilt
    as (Hneo & _ & _ & (c4 & d & _ & _ & Hd) & (c7 & v & _ & _ & Hv)).
  rewrite Hd, Hv. auto.
Qed.

End LoadedEntities.

Lemma load_neos_returns_unlinked_named_witness :
  @load_neos decimal_builtins sample_files neo_csv_path_default
  = Ok sample_loaded_neos
  /\ sample_loaded_neos !! 3%nat
     = Some (Build_NearEarthObject "" None 0.25 false [])
  /\ approaches (Build_NearEarthObject "" None 0.25 false []) = []
  /\ name (Build_NearEarthObject "" None 0.25 false []) <> Some "".
Proof.
  assert (@load_neos decimal_builtins sample_files neo_csv_path_default
          = Ok sample_loaded_neos) as Hload by (vm_compute; reflexivity).
  assert (sample_loaded_neos !! 3%nat
          = Some (Build_NearEarthObject "" None 0.25 false []))
    as Hself by reflexivity.
  split; [exact Hload |]. split; [exact Hself |].
  exact (@load_neos_returns_unlinked_named decimal_builtins sample_files
           _ _ _ _ Hload Hself).
Defined.

Lemma load_approaches_returns_floats_witness :
  @load_approaches decimal_builtins spec_helpers sample_files
    cad_json_path_default = Ok sample_loaded_approaches
  /\ sample_loaded_approaches !! 1%nat
     = Some (Build_CloseApproach (PyStr "99999")
               {| year := 2020; month := 12; day := 1; hour := 0;
                  minute := 30; second := 0; microsecond := 0 |}
               (PyFloat 0.5) (PyFloat 12) None)
  /\ type_ (PyFloat 0.5) = Tfloat
  /\ type_ (PyFloat 12) = Tfloat
  /\ @None NearEarthObject = None.
Proof.
  assert (@load_approaches decimal_builtins spec_helpers sample_files
            cad_json_path_default = Ok sample_loaded_approaches)
    as Hload by (vm_compute; reflexivity).
  assert (sample_loaded_approaches !! 1%nat
          = Some (Build_CloseApproach (PyStr "99999")
                    {| year := 2020; month := 12; day := 1; hour := 0;
                       minute := 30; second := 0; microsecond := 0 |}
                    (PyFloat 0.5) (PyFloat 12) None))
    as Hself by reflexivity.
  split; [exact Hload |]. split; [exact Hself |].
  exact (@load_approaches_returns_floats decimal_builtins spec_helpers
           sample_files _ _ _ _ Hload Hself).
Defined.

(** ** Rows that do not build *)

Section RowFailures.
Context `{Builtins} `{Helpers} `{Files}.

(** X5. A row whose four cells are text passes every type assertion of the
    constructor: it builds an object unless its diameter cell is not empty
    and [float] raises on it, and then it raises what [float] raises. *)
Theorem neo_of_row_text_failure (pdes name cell pha : string) :
  (forall e,
     neo_of_row (dataset1_row pdes name cell pha) = Raise e <->
     cell <> "" /\ float_of_str cell = Raise e)
  /\ (is_Ok (neo_of_row (dataset1_row pdes name cell pha)) <->
      cell = "" \/ is_Ok (float_of_str cell)).
Proof.
  destruct (decide (cell = "")) as [->|Hcell].
  - rewrite (neo_of_row_text pdes name "" pha nan) by reflexivity. split.
    + intros e. split; [discriminate | intros [Hne _]; congruence].
    + split; [auto | intros _; apply is_Ok_Ok].
  - destruct (float_of_str cell) as [k|e'] eqn:Hfloat.
    + rewrite (neo_of_row_text pdes name cell pha k)
        by (rewrite bool_decide_eq_false_2 by exact Hcell; exact Hfloat).
      split.
      * intros e. split; [discriminate | intros [_ Hr]; discriminate].
      * split; [intros _; right; apply is_Ok_Ok | intros _; apply is_Ok_Ok].
    + assert (neo_of_row (dataset1_row pdes name cell pha) = Raise e')
        as ->.
      { rewrite neo_of_row_cells. unfold dataset1_row, row_get.
        simplify_map_eq. simpl.
        rewrite (bool_decide_eq_false_2 (cell = "")) by exact Hcell. simpl.
        rewrite Hfloat. reflexivity. }
      split.
      * intros e. split; [intros [= <-]; auto | intros [_ [= <-]]; auto].
      * split; intros Hok.
        -- exfalso. exact (not_is_Ok_Raise _ Hok).
        -- destruct Hok as [Hc|Hok]; [contradiction |].
           exfalso. exact (not_is_Ok_Raise _ Hok).
Qed.

(** X6. A row that lacks one of the four columns builds no object; when
    the missing column is [pdes], the exception is [KeyError('pdes')]. *)
Theorem neo_of_row_missing_column (row : gmap string pyval) (key : string) :
  key ∈ ["pdes"; "name"; "diameter"; "pha"] ->
  row !! key = None ->
  (exists e, neo_of_row row = Raise e)
  /\ (key = "pdes" -> neo_of_row row = Raise (KeyError (PyStr "pdes"))).
Proof.
  intros Hkey Hmiss.
  assert (forall self, neo_of_row row <> Ok self) as Hno.
  { intros self Hbuilt. apply neo_of_row_Ok in Hbuilt
      as (c1 & c2 & c3 & Hp & Hn & Hd & Hh & _).
    set_unfold in Hkey. destruct Hkey as [->|[->|[->|[->|[]]]]]; congruence. }
  split.
  - destruct (neo_of_row row) as [self|e] eqn:Hrow; [| eauto].
    exfalso. exact (Hno self eq_refl).
  - intros ->. unfold neo_of_row, row_get. rewrite Hmiss. reflexivity.
Qed.

(** X7. When the array under ['data'] holds a row with fewer than eight
    positions, [load_approaches] raises. *)
Theorem load_approaches_short_row cad_json_path reader data i
    (row : list pyval) :
  json_load cad_json_path = Ok reader ->
  getitem_key reader "data" = Ok (PyList data) ->
  data !! i = Some (PyList row) ->
  (length row < 8)%nat ->
  exists e, load_approaches cad_json_path = Raise e.
Proof.
  intros Hreader Hdata Hrow Hlen.
  destruct (load_approaches cad_json_path) as [cas|e] eqn:Hload; [| eauto].
  exfalso.
  destruct (load_approaches_Ok _ _ _ _ Hreader Hdata Hload) as [_ Hith].
  destruct (Hith i _ Hrow) as (ca & _ & Hbuilt).
  apply (approach_of_row_short row Hlen). exists ca. exact Hbuilt.
Qed.

End RowFailures.

Lemma neo_of_row_missing_column_witness :
  "pdes" ∈ ["pdes"; "name"; "diameter"; "pha"]
  /\ delete "pdes" (dataset1_row "1036" "Ganymed" "38.5" "N") !! "pdes" = None
  /\ (exists e,
        @neo_of_row decimal_builtins
          (delete "pdes" (dataset1_row "1036" "Ganymed" "38.5" "N"))
        = Raise e)
  /\ ("pdes" = "pdes" ->
      @neo_of_row decimal_builtins
        (delete "pdes" (dataset1_row "1036" "Ganymed" "38.5" "N"))
      = Raise (KeyError (PyStr "pdes"))).
Proof.
  assert ("pdes" ∈ ["pdes"; "name"; "diameter"; "pha"]) as Hkey
    by (apply list_elem_of_here).
  assert (delete "pdes" (dataset1_row "1036" "Ganymed" "38.5" "N") !! "pdes"
          = None) as Hmiss by reflexivity.
  split; [exact Hkey |]. split; [exact Hmiss |].
  exact (@neo_of_row_missing_column decimal_builtins _ _ Hkey Hmiss).
Defined.

Lemma load_approaches_short_row_witness :
  @json_load damaged_files cad_json_path_default = Ok damaged_cad
  /\ getitem_key damaged_cad "data"
     = Ok (PyList [dataset2_row "433" "1900-01-01 12:00" "0.125" "5.25";
                   PyList [PyStr "433"; PyStr "7"; PyStr "2415020.5";
                           PyStr "1900-01-01 12:00"; PyStr "0.125"]])
  /\ [dataset2_row "433" "1900-01-01 12:00" "0.125" "5.25";
      PyList [PyStr "433"; PyStr "7"; PyStr "2415020.5";
              PyStr "1900-01-01 12:00"; PyStr "0.125"]] !! 1%nat
     = Some (PyList [PyStr "433"; PyStr "7"; PyStr "2415020.5";
                     PyStr "1900-01-01 12:00"; PyStr "0.125"])
  /\ (length [PyStr "433"; PyStr "7"; PyStr "2415020.5";
              PyStr "1900-01-01 12:00"; PyStr "0.125"] < 8)%nat
  /\ exists e,
       @load_approaches decimal_builtins spec_helpers damaged_files
         cad_json_path_default = Raise e.
Proof.
  assert (@json_load damaged_files cad_json_path_default = Ok damaged_cad)
    as Hreader by reflexivity.
  assert (getitem_key damaged_cad "data"
          = Ok (PyList [dataset2_row "433" "1900-01-01 12:00" "0.125" "5.25";
                        PyList [PyStr "433"; PyStr "7"; PyStr "2415020.5";
                                PyStr "1900-01-01 12:00"; PyStr "0.125"]]))
    as Hdata by reflexivity.
  assert ([dataset2_row "433" "1900-01-01 12:00" "0.125" "5.25";
           PyList [PyStr "433"; PyStr "7"; PyStr "2415020.5";
                   PyStr "1900-01-01 12:00"; PyStr "0.125"]] !! 1%nat
          = Some (PyList [PyStr "433"; PyStr "7"; PyStr "2415020.5";
                          PyStr "1900-01-01 12:00"; PyStr "0.125"]))
    as Hrow by reflexivity.
  assert (length [PyStr "433"; PyStr "7"; PyStr "2415020.5";
                  PyStr "1900-01-01 12:00"; PyStr "0.125"] < 8)%nat
    as Hlen by (simpl; lia).
  split; [exact Hreader |]. split; [exact Hdata |]. split; [exact Hrow |].
  split; [exact Hlen |].
  exact (@load_approaches_short_row decimal_builtins spec_helpers
           damaged_files _ _ _ _ _ Hreader Hdata Hrow Hlen).
Defined.

(** * Further properties of the models *)

(** ** What a serialized object holds *)

Lemma NearEarthObject_serialize_fields self csv_output :
  NearEarthObject.serialize self csv_output =
  {[ "designation" := PyStr (designation self);
     "name" := PyStr (default "" (name self));
     "diameter_km" := PyFloat (diameter self);
     "potentially_hazardous" :=
       if csv_output then PyStr (if hazardous self then "True" else "False")
       else PyBool (hazardous self) ]}.
Proof.
  unfold NearEarthObject.serialize. rewrite eq_float_nan.
  destruct self as [d [n|] k [|] a], csv_output; vm_compute; reflexivity.
Qed.

(** X8. In either output mode the record of an object holds a [float]
    under [diameter_km] and a [str] under [designation] and [name];
    under [potentially_hazardous] it holds a [str] in tabular mode and a
    [bool] in structured mode. *)
Theorem NearEarthObject_serialize_types self csv_output :
  type_ <$> NearEarthObject.serialize self csv_output =
  {[ "designation" := Tstr; "name" := Tstr; "diameter_km" := Tfloat;
     "potentially_hazardous" := if csv_output then Tstr else Tbool ]}.
Proof.
  rewrite NearEarthObject_serialize_fields.
  destruct csv_output; vm_compute; reflexivity.
Qed.

(** X9. Two objects have the same record, in a given output mode, exactly
    when they agree on designation, diameter and hazardous flag and on
    their names, an absent name counting as the empty one: the record tells
    nothing else apart, and in particular not the approaches. *)
Theorem NearEarthObject_serialize_eq self other csv_output :
  NearEarthObject.serialize self csv_output
  = NearEarthObject.serialize other csv_output <->
  designation self = designation other
  /\ default "" (name self) = default "" (name other)
  /\ diameter self = diameter other
  /\ hazardous self = hazardous other.
Proof.
  split.
  - intros Heq.
    destruct (NearEarthObject_serialize_lookup self csv_output)
      as (Hd & Hn & Hk & Hh).
    destruct (NearEarthObject_serialize_lookup other csv_output)
      as (Hd' & Hn' & Hk' & Hh').
    cbv zeta in *. rewrite Heq in Hd, Hn, Hk, Hh.
    rewrite Hd' in Hd. rewrite Hn' in Hn. rewrite Hk' in Hk.
    rewrite Hh' in Hh.
    injection Hd as ->. injection Hn as ->. injection Hk as ->.
    repeat split.
    destruct csv_output, (hazardous self), (hazardous other);
      congruence.
  - intros (Hd & Hn & Hk & Hh). rewrite !NearEarthObject_serialize_fields.
    rewrite Hd, Hn, Hk, Hh. reflexivity.
Qed.

(** ** Writing an object and reading it back *)

Lemma as_dataset1_row_fields (pdes name diameter pha : pyval) :
  as_dataset1_row
    {[ "designation" := pdes; "name" := name; "diameter_km" := diameter;
       "potentially_hazardous" := pha ]}
  = {[ "pdes" := pdes; "name" := name; "diameter" := diameter;
       "pha" := pha ]}.
Proof. vm_compute. reflexivity. Qed.

(** X10. The record of any object, in either output mode, read back under
    the columns of dataset 1 by the body of [load_neos], builds an object
    with the same designation and diameter (NaN included) and no
    approaches; the name comes back unless it was the empty text, which
    comes back absent; and the hazardous flag always comes back false,
    because it is written as ['True'], ['False'] or a [bool] and read
    against ['Y']. *)
Theorem serialize_then_reparse `{Builtins} self csv_output :
  neo_of_row (as_dataset1_row (NearEarthObject.serialize self csv_output))
  = Ok {| designation := designation self;
          name := if bool_decide (name self = Some "") then None
                  else name self;
          diameter := diameter self;
          hazardous := false;
          approaches := [] |}.
Proof.
  rewrite NearEarthObject_serialize_fields, as_dataset1_row_fields.
  apply neo_of_row_Ok. eexists _, _, _. simpl.
  split; [by simplify_map_eq |]. split; [by simplify_map_eq |].
  split; [by simplify_map_eq |]. split; [by simplify_map_eq |].
  split; [| split; [reflexivity | split; [| reflexivity]]].
  - destruct (name self) as [n|]; simpl; [| reflexivity].
    destruct (decide (n = "")) as [->|Hn].
    + reflexivity.
    + rewrite bool_decide_eq_false_2 by exact Hn.
      rewrite bool_decide_eq_false_2 by congruence. reflexivity.
  - destruct csv_output, (hazardous self); reflexivity.
Qed.

(** ** [fullname] and the constructor, further *)

Lemma append_empty_r (s : string) : s ++ "" = s.
Proof.
  induction s as [|c s IH]; [reflexivity |].
  change (String c (s ++ "") = String c s). by rewrite IH.
Qed.

(** X11. The full name of an object is its designation exactly when the
    object has no name; a present name, even the empty one, makes the full
    name longer than the designation. *)
Theorem NearEarthObject_fullname_unnamed (self : NearEarthObject) :
  NearEarthObject.fullname self = designation self <-> name self = None.
Proof.
  unfold NearEarthObject.fullname. destruct (name self) as [n|].
  - split; [| discriminate]. intros Heq. exfalso.
    rewrite <- (append_empty_r (designation self)) in Heq at 2.
    apply (inj (String.append (designation self))) in Heq.
    vm_compute in Heq. discriminate Heq.
  - split; reflexivity.
Qed.

Lemma failed_assertion_exception `{Builtins} {A} (v : pyval) (text : string)
    (e : exn) :
  py_str v ≫= (fun shown => Raise (AssertionError (shown ++ text)))
  = @Raise A e <->
  py_str v = Raise e
  \/ exists shown, py_str v = Ok shown /\ e = AssertionError (shown ++ text).
Proof.
  destruct (py_str v) as [shown|e']; simpl; split.
  - intros [= <-]. right. eauto.
  - intros [Hr|(shown' & [= <-] & ->)]; [discriminate | reflexivity].
  - intros [= <-]. left. reflexivity.
  - intros [[= <-]|(shown & Hr & _)]; [reflexivity | discriminate].
Qed.

(** X12. When construction fails, it fails on the first argument, in the
    order [designation], [name], [diameter], [hazardous], that has the
    wrong type: the exception is what writing that argument into the
    message raises, when that raises, and otherwise the [AssertionError]
    whose message is the text of that argument followed by the text of its
    own assertion. *)
Theorem NearEarthObject_init_first_failure `{Builtins} designation name
    diameter hazardous e :
  NearEarthObject.__init__ designation name diameter hazardous = Raise e <->
  (type_ designation <> Tstr
   /\ (py_str designation = Raise e
       \/ exists shown,
            py_str designation = Ok shown
            /\ e = AssertionError (shown ++ " is not a string value")))
  \/ (type_ designation = Tstr
      /\ (type_ name <> Tstr /\ name <> PyNone)
      /\ (py_str name = Raise e
          \/ exists shown,
               py_str name = Ok shown
               /\ e = AssertionError (shown ++ " is not a string value")))
  \/ (type_ designation = Tstr
      /\ (type_ name = Tstr \/ name = PyNone)
      /\ type_ diameter <> Tfloat
      /\ (py_str diameter = Raise e
          \/ exists shown,
               py_str diameter = Ok shown
               /\ e = AssertionError (shown ++ " is not a float value")))
  \/ (type_ designation = Tstr
      /\ (type_ name = Tstr \/ name = PyNone)
      /\ type_ diameter = Tfloat
      /\ type_ hazardous <> Tbool
      /\ (py_str hazardous = Raise e
          \/ exists shown,
               py_str hazardous = Ok shown
               /\ e = AssertionError (shown ++ " is not a boolean value"))).
Proof.
  rewrite NearEarthObject_init_cases.
  pose proof (as_str_None designation) as Hd.
  pose proof (as_str_type designation) as Hd'.
  pose proof (as_str_or_None_None name) as Hn.
  pose proof (as_str_or_None_type name) as Hn'.
  pose proof (as_float_None diameter) as Hk.
  pose proof (as_float_type diameter) as Hk'.
  pose proof (as_bool_None hazardous) as Hh.
  pose proof (as_bool_type hazardous) as Hh'.
  destruct (as_str designation) as [d|];
    [assert (type_ designation = Tstr) as Td by (apply Hd'; eauto)
    | assert (type_ designation <> Tstr) as Td by (apply Hd; reflexivity)].
  2: { rewrite failed_assertion_exception. split; [intros Hm; left; auto |].
       intros [[_ Hm]|[(? & _)|[(? & _)|(? & _)]]];
         [exact Hm | contradiction ..]. }
  destruct (as_str_or_None name) as [n|];
    [assert (type_ name = Tstr \/ name = PyNone) as Tn by (apply Hn'; eauto)
    | assert (type_ name <> Tstr /\ name <> PyNone) as Tn
        by (apply Hn; reflexivity)].
  2: { rewrite failed_assertion_exception.
       split; [intros Hm; right; left; auto |].
       intros [[? _]|[(_ & _ & Hm)|[(_ & ? & _)|(_ & ? & _)]]];
         [contradiction | exact Hm | exfalso; tauto ..]. }
  destruct (as_float diameter) as [k|];
    [assert (type_ diameter = Tfloat) as Tk by (apply Hk'; eauto)
    | assert (type_ diameter <> Tfloat) as Tk by (apply Hk; reflexivity)].
  2: { rewrite failed_assertion_exception.
       split; [intros Hm; right; right; left; auto |].
       intros [[? _]|[(_ & ? & _)|[(_ & _ & _ & Hm)|(_ & _ & ? & _)]]];
         [contradiction | exfalso; tauto | exact Hm | contradiction]. }
  destruct (as_bool hazardous) as [h|];
    [assert (type_ hazardous = Tbool) as Th by (apply Hh'; eauto)
    | assert (type_ hazardous <> Tbool) as Th by (apply Hh; reflexivity)].
  - split; [discriminate |].
    intros [[? _]|[(_ & ? & _)|[(_ & _ & ? & _)|(_ & _ & _ & ? & _)]]];
      [contradiction | exfalso; tauto | contradiction ..].
  - rewrite failed_assertion_exception.
    split; [intros Hm; right; right; right; auto 6 |].
    intros [[? _]|[(_ & ? & _)|[(_ & _ & ? & _)|(_ & _ & _ & _ & Hm)]]];
      [contradiction | exfalso; tauto | contradiction | exact Hm].
Qed.

(** * [__str__] and [__repr__] *)

Section DisplayProperties.
Context `{Builtins} `{Helpers} `{Files} `{Formatting}.

Lemma CloseApproach_init_Ok (time distance velocity designation : pyval)
    (self : CloseApproach) :
  CloseApproach.__init__ time distance velocity designation = Ok self ->
  Models.distance self = distance
  /\ Models.velocity self = velocity
  /\ _designation self = designation
  /\ neo self = None.
Proof.
  unfold CloseApproach.__init__. intros Hinit.
  apply bind_Ok in Hinit as (t & _ & [= <-]). repeat split.
Qed.

(** X13. [str()] of an approach as the constructor returns it raises
    [AttributeError]: [neo] is [None] and [__str__] reads
    [self.neo.fullname], whatever the distance and velocity are. Once [neo]
    is set, [__str__] no longer raises [AttributeError]. *)
Theorem CloseApproach_str_unlinked (time distance velocity designation
    : pyval) (self : CloseApproach) :
  CloseApproach.__init__ time distance velocity designation = Ok self ->
  Display.CloseApproach.__str__ self
  = inl (AttributeError "NoneType" "fullname")
  /\ forall linked, exists outcome,
       Display.CloseApproach.__str__ (set_neo self (Some linked))
       = inr outcome.
Proof.
  intros Hinit.
  destruct (CloseApproach_init_Ok _ _ _ _ _ Hinit) as (_ & _ & _ & Hneo).
  unfold Display.CloseApproach.__str__. rewrite Hneo.
  split; [reflexivity |]. intros linked. simpl. eauto.
Qed.

(** X14. For every approach [load_approaches] returns, [repr()] returns
    text, [str()] raises [AttributeError], and [str()] returns text once the
    approach is linked to an object: the loader stored floats, which always
    format. *)
Theorem load_approaches_display cad_json_path cas i self :
  load_approaches cad_json_path = Ok cas ->
  cas !! i = Some self ->
  is_Ok (Display.CloseApproach.__repr__ self)
  /\ Display.CloseApproach.__str__ self
     = inl (AttributeError "NoneType" "fullname")
  /\ forall linked, exists text,
       Display.CloseApproach.__str__ (set_neo self (Some linked))
       = inr (Ok text).
Proof.
  intros Hload Hself.
  destruct (load_approaches_built _ _ _ _ Hload Hself) as (row & Hbuilt).
  apply approach_of_row_Ok in Hbuilt
    as (Hneo & _ & _ & (c4 & d & _ & _ & Hd) & (c7 & v & _ & _ & Hv)).
  unfold Display.CloseApproach.__repr__, Display.CloseApproach.__str__.
  rewrite Hneo. simpl. rewrite Hd, Hv. simpl.
  split; [apply is_Ok_Ok |]. split; [reflexivity |].
  intros linked. eauto.
Qed.

(** X15. The constructor accepts a distance of any type, and the type
    shows when the approach is printed: [repr()] raises [ValueError] when
    the distance is a [str], raises [TypeError] when it is [None], a
    [list] or a [dict], and returns text when distance and velocity are
    both floats. *)
Theorem CloseApproach_repr_unchecked (time distance velocity designation
    : pyval) (self : CloseApproach) :
  CloseApproach.__init__ time distance velocity designation = Ok self ->
  (type_ distance = Tstr ->
   Display.CloseApproach.__repr__ self = Raise ValueError)
  /\ (type_ distance ∈ [TNone; Tlist; Tdict] ->
      Display.CloseApproach.__repr__ self = Raise TypeError)
  /\ (type_ distance = Tfloat -> type_ velocity = Tfloat ->
      is_Ok (Display.CloseApproach.__repr__ self)).
Proof.
  intros Hinit.
  destruct (CloseApproach_init_Ok _ _ _ _ _ Hinit) as (Hd & Hv & _).
  unfold Display.CloseApproach.__repr__. rewrite Hd, Hv.
  split; [| split].
  - destruct distance; try discriminate. reflexivity.
  - intros Hty. set_unfold in Hty.
    destruct distance; simpl in Hty; try reflexivity;
      destruct Hty as [?|[?|[?|[]]]]; discriminate.
  - intros Td Tv. destruct distance; try discriminate.
    destruct velocity; try discriminate. apply is_Ok_Ok.
Qed.

End DisplayProperties.

Example NearEarthObject_display_sample :
  Display.NearEarthObject.__str__ <$> sample_loaded_neos
  = ["NEO 433 (Eros) has diameter of 16.500 km and is not potentially hazardous";
     "NEO 2020 AB has diameter of nan km and is potentially hazardous";
     "NEO 1036 (Ganymed) has diameter of 38.500 km and is not potentially hazardous";
     "NEO  has diameter of 0.250 km and is not potentially hazardous"]
  /\ Display.NearEarthObject.__repr__ <$> sample_loaded_neos
     = ["NearEarthObject(designation='433', name='Eros', diameter=16.500, hazardous=False)";
        "NearEarthObject(designation='2020 AB', name=None, diameter=nan, hazardous=True)";
        "NearEarthObject(designation='1036', name='Ganymed', diameter=38.500, hazardous=False)";
        "NearEarthObject(designation='', name=None, diameter=0.250, hazardous=False)"].
Proof. split; vm_compute; reflexivity. Qed.

Example CloseApproach_repr_sample :
  @Display.CloseApproach.__repr__ decimal_builtins spec_helpers
    reference_formatting <$> sample_loaded_approaches
  = [Ok "CloseApproach(time='1900-01-01 12:00', distance=0.12, velocity=5.25, neo=None)";
     Ok "CloseApproach(time='2020-12-01 00:30', distance=0.50, velocity=12.00, neo=None)"].
Proof. vm_compute. reflexivity. Qed.

Lemma CloseApproach_str_unlinked_witness :
  exists self,
    @CloseApproach.__init__ spec_helpers (PyStr "1900-01-01 12:00")
      (PyFloat 0.125) (PyFloat 5.25) (PyStr "433") = Ok self
    /\ @Display.CloseApproach.__str__ decimal_builtins spec_helpers
         reference_formatting self
       = inl (AttributeError "NoneType" "fullname")
    /\ forall linked, exists outcome,
         @Display.CloseApproach.__str__ decimal_builtins spec_helpers
           reference_formatting (set_neo self (Some linked))
         = inr outcome.
Proof.
  eexists. split; [vm_compute; reflexivity |].
  apply (@CloseApproach_str_unlinked decimal_builtins spec_helpers
           reference_formatting (PyStr "1900-01-01 12:00") (PyFloat 0.125)
           (PyFloat 5.25) (PyStr "433")).
  vm_compute. reflexivity.
Defined.

Lemma load_approaches_display_witness :
  exists self,
    @load_approaches decimal_builtins spec_helpers sample_files
      cad_json_path_default = Ok sample_loaded_approaches
    /\ sample_loaded_approaches !! 0%nat = Some self
    /\ is_Ok (@Display.CloseApproach.__repr__ decimal_builtins spec_helpers
                reference_formatting self)
    /\ @Display.CloseApproach.__str__ decimal_builtins spec_helpers
         reference_formatting self
       = inl (AttributeError "NoneType" "fullname")
    /\ forall linked, exists text,
         @Display.CloseApproach.__str__ decimal_builtins spec_helpers
           reference_formatting (set_neo self (Some linked))
         = inr (Ok text).
Proof.
  assert (@load_approaches decimal_builtins spec_helpers sample_files
            cad_json_path_default = Ok sample_loaded_approaches)
    as Hload by (vm_compute; reflexivity).
  eexists. split; [exact Hload |]. split; [reflexivity |].
  apply (@load_approaches_display decimal_builtins spec_helpers sample_files
           reference_formatting _ _ 0%nat _ Hload).
  reflexivity.
Defined.

Lemma CloseApproach_repr_unchecked_witness :
  exists self,
    @CloseApproach.__init__ spec_helpers (PyStr "1900-01-01 12:00")
      (PyStr "0.125") (PyFloat 5.25) (PyStr "433") = Ok self
    /\ type_ (PyStr "0.125") = Tstr
    /\ @Display.CloseApproach.__repr__ decimal_builtins spec_helpers
         reference_formatting self = Raise ValueError.
Proof.
  eexists. split; [vm_compute; reflexivity |]. split; [reflexivity |].
  apply (@CloseApproach_repr_unchecked decimal_builtins spec_helpers
           reference_formatting (PyStr "1900-01-01 12:00") (PyStr "0.125")
           (PyFloat 5.25) (PyStr "433")).
  - vm_compute. reflexivity.
  - reflexivity.
Defined.

(** * Reading a row and writing it back *)

(** X16. An object built from a row of text cells is written, in tabular
    mode, with the row's [pdes] and [name] cells as they were, the empty
    name included, and with the diameter that [float] read, or NaN for an
    empty cell; its [pha] cell is not kept: ['Y'] is written as ['True'] and
    any other text as ['False']. *)
Theorem parse_then_serialize `{Builtins} (pdes name cell pha : string)
    (self : NearEarthObject) :
  neo_of_row (dataset1_row pdes name cell pha) = Ok self ->
  NearEarthObject.serialize self true
  = {[ "designation" := PyStr pdes;
       "name" := PyStr name;
       "diameter_km" := PyFloat (diameter self);
       "potentially_hazardous" :=
         PyStr (if bool_decide (pha = "Y") then "True" else "False") ]}
  /\ (if bool_decide (cell = "") then Ok nan else float_of_str cell)
     = Ok (diameter self).
Proof.
  intros Hbuilt. rewrite NearEarthObject_serialize_fields.
  apply neo_of_row_Ok in Hbuilt
    as (n & c & p & Hpdes & Hname & Hcell & Hpha & Hn & Hk & Hh & _).
  unfold dataset1_row in *. simplify_map_eq. simpl in *.
  split; [| exact Hk].
  assert (default "" (Models.name self) = name) as ->.
  { destruct (decide (name = "")) as [->|Hne].
    - destruct (Models.name self); [discriminate | reflexivity].
    - rewrite bool_decide_eq_false_2 in Hn by exact Hne.
      destruct (Models.name self); simpl in *; congruence. }
  rewrite Hh. reflexivity.
Qed.

Lemma parse_then_serialize_witness :
  @neo_of_row decimal_builtins (dataset1_row "2020 AB" "" "" "Y")
  = Ok (Build_NearEarthObject "2020 AB" None nan true [])
  /\ NearEarthObject.serialize
       (Build_NearEarthObject "2020 AB" None nan true []) true
     = {[ "designation" := PyStr "2020 AB";
          "name" := PyStr "";
          "diameter_km" := PyFloat nan;
          "potentially_hazardous" := PyStr "True" ]}
  /\ Ok nan = Ok nan.
Proof.
  assert (@neo_of_row decimal_builtins (dataset1_row "2020 AB" "" "" "Y")
          = Ok (Build_NearEarthObject "2020 AB" None nan true []))
    as Hbuilt by (vm_compute; reflexivity).
  split; [exact Hbuilt |].
  exact (@parse_then_serialize decimal_builtins _ _ _ _ _ Hbuilt).
Defined.
